(** * Recipe33: the planning state machine, the macro aggregator and the
    shopping-list aggregator of [src/App.tsx], with the analysis gateway of
    [src/services/geminiService.ts].

    The React component keeps its state in [useState] cells; a handler is a
    function from the state before an event to the state after it, and the
    [useEffect] hooks run after the render that follows when one of their
    dependencies changed.

    Conventions of the embedding:
    - a JavaScript number is an IEEE 754 binary64 value ([float]), with the
      addition and the comparisons of the standard; the macro totals are
      computed in it;
    - where the code compares what [JSON.parse] returned with 0, the parsed
      number is an integer (a length or a count) or NaN;
    - the runtime's string-to-number conversion and [localeCompare] are
      parameters of the sections that use them;
    - a string is a sequence of bytes, compared by character code. *)

From Stdlib Require Import PrimFloat.
From Stdlib Require SpecFloat FloatOps FloatAxioms.
From Stdlib Require Import ZArith Ascii String.
From stdpp Require Import base option list strings pretty gmap.

Open Scope Z_scope.

(** ** JavaScript values held in record fields *)

Module Js.

(** The result of converting a parsed JSON value for a comparison with 0:
    an integer or NaN. *)
Inductive Number := Num (z : Z) | NaN.

(** A value held in a field: a number is a binary64 value. *)
Inductive Value :=
| Undefined
| Null
| Bool (b : bool)
| OfNumber (x : float)
| Str (s : string).

(** The binary64 value nearest to an integer (ties to even), as a numeric
    literal or a JSON number is read. *)
Definition ofInteger (z : Z) : float :=
  FloatOps.SF2Prim (SpecFloat.binary_normalize FloatOps.prec FloatOps.emax z 0 false).

(** Truthiness of a number: [0], [-0] and [NaN] are falsy. *)
Definition truthy (x : float) : bool :=
  negb (is_nan x || (x =? 0)%float).

(** [x || 0]. *)
Definition orZero (x : float) : float :=
  if truthy x then x else 0%float.

Section Conversion.
(** The runtime's StringToNumber: [NaN] for a string that is no numeric
    literal. *)
Variable StringToNumber : string -> float.

(** [Number(v)]. *)
Definition toNumber (v : Value) : float :=
  match v with
  | Undefined => nan
  | Null => 0%float
  | Bool b => if b then 1%float else 0%float
  | OfNumber x => x
  | Str s => StringToNumber s
  end.
End Conversion.

(** A StringToNumber for the examples, on the literals they use: the empty
    string is [0]; an optionally signed run of decimal digits with at most
    one point in it is the quotient of its digits, read as an integer, by
    the power of ten of its fraction, both rounded to binary64. That is the
    value nearest to the decimal, as the runtime gives it, when the integer
    is below 2^53 and the fraction has at most 22 digits. Every other
    string is [NaN] here; the runtime also reads exponents, radix prefixes,
    [Infinity] and surrounding white space, which the examples leave
    alone. The theorems are about every conversion, not about this one. *)
Definition digit (c : ascii) : option Z :=
  let n := Z.of_nat (nat_of_ascii c) in
  if (48 <=? n) && (n <=? 57) then Some (n - 48) else None.

(** The digits read so far as an integer, and the number of them after the
    point ([None] before the point). *)
Fixpoint digits (acc : Z) (fraction : option nat) (s : string)
  : option (Z * nat) :=
  match s with
  | EmptyString => Some (acc, default 0%nat fraction)
  | String "." s' =>
      match fraction with
      | None => digits acc (Some 0%nat) s'
      | Some _ => None
      end
  | String c s' =>
      match digit c with
      | Some d => digits (10 * acc + d) (S <$> fraction) s'
      | None => None
      end
  end.

Definition unsignedLiteral (s : string) : float :=
  match s with
  | EmptyString | String "." EmptyString => nan
  | _ =>
      match digits 0 None s with
      | Some (m, k) => (ofInteger m / ofInteger (10 ^ Z.of_nat k))%float
      | None => nan
      end
  end.

Definition decimalLiteral (s : string) : float :=
  match s with
  | EmptyString => 0%float
  | String "-" s' => (- unsignedLiteral s')%float
  | String "+" s' => unsignedLiteral s'
  | _ => unsignedLiteral s
  end.

(** A string-or-null (or string-or-undefined) value read as a condition:
    [null], [undefined] and the empty string are falsy. *)
Definition truthyString (o : option string) : option string :=
  match o with
  | Some s => if decide (s = "") then None else Some s
  | None => None
  end.

(** [message || fallback]. *)
Definition orString (message : option string) (fallback : string) : string :=
  match truthyString message with
  | Some m => m
  | None => fallback
  end.

(** [Array.prototype.sort] with a comparator whose sign decides the order.
    The sort is stable: an element moves in front of the first element it
    does not come after. *)
Fixpoint insertBy {A} (cmp : A -> A -> Z) (x : A) (sorted : list A) : list A :=
  match sorted with
  | [] => [x]
  | y :: rest =>
      if cmp x y <=? 0 then x :: y :: rest else y :: insertBy cmp x rest
  end.

Definition sort {A} (cmp : A -> A -> Z) (l : list A) : list A :=
  foldr (insertBy cmp) [] l.

(** A reading of [localeCompare] for the examples: the order of the
    character codes. *)
Definition codeCompare (a b : string) : Z :=
  match String.compare a b with
  | Lt => -1
  | Eq => 0
  | Gt => 1
  end.

End Js.

(** ** Domain model ([src/types.ts]) *)

Module Types.

Inductive ActivityLevel := sedentary | active | athlete.

Record Inventory := {
  oven : bool;
  blender : bool;
  castIron : bool;
  wok : bool;
  kitchenAid : bool;
  nonStickPan : bool;
  airFryer : bool
}.

Record UserSettings := {
  name : string;
  weight : Z;
  activityLevel : ActivityLevel;
  targetCalories : Z;
  targetProtein : Z;
  targetCarbs : Z;
  inventory : Inventory;
  excludedIngredients : string
}.

Record MacroData := {
  m_calories : float;
  m_protein : float;
  m_fat : float;
  m_carbs : float
}.

(** The four macro fields are declared [number], but the edit form stores
    the raw text of the input box in them and a stored recipe may lack them:
    they hold an arbitrary value. *)
Record IngredientItem := {
  amount : string;
  item : string;
  calories : Js.Value;
  protein : Js.Value;
  fat : Js.Value;
  carbs : Js.Value
}.

Record CookingStep := {
  text : string;
  timer_seconds : option Z
}.

Record RecipeVariation := {
  ingredients : list IngredientItem;
  notes : string;
  steps : list CookingStep
}.

Inductive VariationKey := Proteins | Balanced | Carbs.

Record Variations := {
  vProteins : RecipeVariation;
  vBalanced : RecipeVariation;
  vCarbs : RecipeVariation
}.

Record RecipeAnalysis := {
  a_title : string;
  original_macros : MacroData;
  variations : Variations
}.

Record SavedRecipe := {
  id : string;
  title : string;
  timestamp : Z;
  analysis : RecipeAnalysis
}.

Record DayPlan := {
  date : string;
  recipeId : option string;
  variation : option VariationKey
}.

Inductive AppState :=
| HOME | COOKBOOK | CONFIG | INPUT | ANALYZING | RESULTS
| SHOPPING_LIST | ERROR | RECIPE_SELECTOR.

#[global] Instance VariationKey_eq_dec : EqDecision VariationKey.
Proof. solve_decision. Defined.

#[global] Instance AppState_eq_dec : EqDecision AppState.
Proof. solve_decision. Defined.

(** [vs[k]]. *)
Definition getVariation (vs : Variations) (k : VariationKey) : RecipeVariation :=
  match k with
  | Proteins => vProteins vs
  | Balanced => vBalanced vs
  | Carbs => vCarbs vs
  end.

(** [{...vs, [k]: v}]. *)
Definition setVariation (vs : Variations) (k : VariationKey) (v : RecipeVariation)
  : Variations :=
  match k with
  | Proteins => {| vProteins := v; vBalanced := vBalanced vs; vCarbs := vCarbs vs |}
  | Balanced => {| vProteins := vProteins vs; vBalanced := v; vCarbs := vCarbs vs |}
  | Carbs => {| vProteins := vProteins vs; vBalanced := vBalanced vs; vCarbs := v |}
  end.

End Types.

Import Types.

(** ** Macro aggregator ([calculateTotalMacros]) *)

Section Macros.
Variable StringToNumber : string -> float.

Definition zeroMacros : MacroData :=
  {| m_calories := 0; m_protein := 0; m_fat := 0; m_carbs := 0 |}.

(** The reducer passed to [reduce]. *)
Definition addIngredient (acc : MacroData) (curr : IngredientItem) : MacroData :=
  {| m_calories :=
       m_calories acc + Js.orZero (Js.toNumber StringToNumber (calories curr));
     m_protein :=
       m_protein acc + Js.orZero (Js.toNumber StringToNumber (protein curr));
     m_fat :=
       m_fat acc + Js.orZero (Js.toNumber StringToNumber (fat curr));
     m_carbs :=
       m_carbs acc + Js.orZero (Js.toNumber StringToNumber (carbs curr)) |}.

Definition calculateTotalMacros (ings : list IngredientItem) : MacroData :=
  fold_left addIngredient ings zeroMacros.

(** The sum the specification describes. A field counts for nothing when it
    is missing or does not convert to a number, and for the number it
    converts to otherwise (a zero of either sign counts as [0]). *)
Definition contribution (v : Js.Value) : float :=
  let x := Js.toNumber StringToNumber v in
  if is_nan x then 0%float
  else if (x =? 0)%float then 0%float
  else x.

(** The sum of one field over the rows: [0 + c1 + c2 + ... + cn], added in
    the order of the rows (binary64 addition is not associative). *)
Definition fieldSum (f : IngredientItem -> Js.Value) (ings : list IngredientItem)
  : float :=
  fold_left (fun sum i => (sum + contribution (f i))%float) ings 0%float.

End Macros.

(** ** Values read back by [JSON.parse] *)

Module Json.

#[local] Set Warnings "-register-all".

Inductive Value :=
| Null
| Bool (b : bool)
| Num (z : Z)
| Str (s : string)
| Arr (elements : list Value)
| Obj (members : list (string * Value)).

(** Evaluating an expression gives a value or throws a TypeError. *)
Inductive Result (A : Type) :=
| Ok (a : A)
| TypeError.
Arguments Ok {A} a.
Arguments TypeError {A}.

(** An own property of an object; of two members with one key, [JSON.parse]
    keeps the later. *)
Fixpoint member (key : string) (members : list (string * Value)) : option Value :=
  match members with
  | [] => None
  | (k, v) :: rest =>
      match member key rest with
      | Some v' => Some v'
      | None => if decide (k = key) then Some v else None
      end
  end.

(** [v.length]; [None] is [undefined]. *)
Definition lengthOf (v : Value) : Result (option Value) :=
  match v with
  | Null => TypeError
  | Bool _ | Num _ => Ok None
  | Str s => Ok (Some (Num (Z.of_nat (String.length s))))
  | Arr elements => Ok (Some (Num (Z.of_nat (length elements))))
  | Obj members => Ok (member "length" members)
  end.

(** [v[0]]. *)
Definition first (v : Value) : Result (option Value) :=
  match v with
  | Null => TypeError
  | Bool _ | Num _ => Ok None
  | Str EmptyString => Ok None
  | Str (String c _) => Ok (Some (Str (String c EmptyString)))
  | Arr elements => Ok (head elements)
  | Obj members => Ok (member "0" members)
  end.

(** [x.analysis], where [x] may be [undefined]. *)
Definition analysisOf (x : option Value) : Result (option Value) :=
  match x with
  | None | Some Null => TypeError
  | Some (Obj members) => Ok (member "analysis" members)
  | Some _ => Ok None
  end.

(** Truthiness. *)
Definition truthy (x : option Value) : bool :=
  match x with
  | None | Some Null => false
  | Some (Bool b) => b
  | Some (Num z) => negb (z =? 0)
  | Some (Str s) => negb (bool_decide (s = ""))
  | Some (Arr _) | Some (Obj _) => true
  end.

(** [String(v)]; an array joins its elements with commas, [null] elements
    as the empty string. *)
Fixpoint toString (v : Value) : string :=
  match v with
  | Null => "null"
  | Bool true => "true"
  | Bool false => "false"
  | Num z => pretty z
  | Str s => s
  | Arr elements =>
      (fix join (l : list Value) : string :=
         match l with
         | [] => ""
         | x :: rest =>
             let sx := match x with Null => "" | _ => toString x end in
             match rest with
             | [] => sx
             | _ :: _ => sx +:+ "," +:+ join rest
             end
         end) elements
  | Obj _ => "[object Object]"
  end.

Section Comparison.
Variable StringToNumber : string -> Js.Number.

Definition toNumber (v : Value) : Js.Number :=
  match v with
  | Null => Js.Num 0
  | Bool b => Js.Num (if b then 1 else 0)
  | Num z => Js.Num z
  | Str s => StringToNumber s
  | Arr _ | Obj _ => StringToNumber (toString v)
  end.

(** [x > 0]. *)
Definition greaterThanZero (x : option Value) : bool :=
  match x with
  | None => false
  | Some v =>
      match toNumber v with
      | Js.Num z => 0 <? z
      | Js.NaN => false
      end
  end.
End Comparison.

(** The elements [new Set(v)] receives; a value that is neither iterable nor
    [null] throws. *)
Definition iterate (v : Value) : Result (list Value) :=
  match v with
  | Null => Ok []
  | Arr elements => Ok elements
  | Str s => Ok ((fun c => Str (String c EmptyString)) <$> list_ascii_of_string s)
  | Bool _ | Num _ | Obj _ => TypeError
  end.

End Json.

(** ** Asynchronous calls

    An [async] function is a tree: it is done, or it awaits a call and goes
    on with the answer. Running a tree against the outside world gives its
    result and the calls it made, in order; the world may answer the n-th
    call differently from the ones before. *)

Module Async.

Inductive Outcome (A : Type) :=
| Resolved (a : A)
| Rejected (message : string).
Arguments Resolved {A} a.
Arguments Rejected {A} message.

Inductive Proc (Req Resp A : Type) :=
| Done (a : A)
| Await (q : Req) (k : Resp -> Proc Req Resp A).
Arguments Done {Req Resp A} a.
Arguments Await {Req Resp A} q k.

Fixpoint run {Req Resp A} (world : nat -> Req -> Resp) (n : nat)
    (p : Proc Req Resp A) : A * list Req :=
  match p with
  | Done a => (a, [])
  | Await q k =>
      let '(a, calls) := run world (S n) (k (world n q)) in
      (a, q :: calls)
  end.

End Async.

(** ** The analysis gateway ([src/services/geminiService.ts]) *)

Module Gemini.
Import Async.

Inductive Part :=
| InlineData (mimeType data : string)
| Text (text : string).

(** The argument of [ai.models.generateContent]; the response schema and
    the temperature are constants and are left out. *)
Record GenerateContentRequest := {
  model : string;
  parts : list Part;
  systemInstruction : string;
  responseMimeType : string
}.

(** What [generateContent] does: it resolves with a response whose [text]
    may be undefined, or it rejects with an error whose [message] may be
    undefined. *)
Inductive SdkResult :=
| Responded (text : option string)
| Failed (message : option string).

Section Service.
Variable API_KEY : string.
(** The prompt template. *)
Variable getSystemPrompt : UserSettings -> string.
(** [JSON.parse(text) as RecipeAnalysis]: the value, or the message of the
    SyntaxError it throws. *)
Variable JSON_parse : string -> RecipeAnalysis + option string.

Definition analyzeRecipeWithGemini (userSettings : UserSettings)
    (imagesBase64 : list string) (textInput : string)
  : Proc GenerateContentRequest SdkResult (Outcome RecipeAnalysis) :=
  if decide (API_KEY = "") then Done (Rejected "API Key is missing.")
  else
    let systemPrompt := getSystemPrompt userSettings in
    let parts :=
      (InlineData "image/jpeg" <$> imagesBase64)
      ++ (if decide (textInput = "") then [] else [Text textInput]) in
    Await {| model := "gemini-2.5-pro"; parts := parts;
             systemInstruction := systemPrompt;
             responseMimeType := "application/json" |}
      (fun response =>
         let rethrow message :=
           Done (Rejected (Js.orString message "Failed to analyze recipe.")) in
         match response with
         | Failed message => rethrow message
         | Responded text =>
             match Js.truthyString text with
             | None => rethrow (Some "No response from Gemini.")
             | Some text =>
                 match JSON_parse text with
                 | inl result => Done (Resolved result)
                 | inr message => rethrow message
                 end
             end
         end).

(** The refinement prompt, built from [JSON.stringify(currentAnalysis)] and
    the instruction. *)
Variable refinementPrompt : RecipeAnalysis -> string -> string.

Definition refineRecipeWithGemini (userSettings : UserSettings)
    (currentAnalysis : RecipeAnalysis) (instruction : string)
  : Proc GenerateContentRequest SdkResult (Outcome RecipeAnalysis) :=
  if decide (API_KEY = "") then Done (Rejected "API Key is missing.")
  else
    let systemPrompt := getSystemPrompt userSettings in
    Await {| model := "gemini-2.5-pro";
             parts := [Text (refinementPrompt currentAnalysis instruction)];
             systemInstruction := systemPrompt;
             responseMimeType := "application/json" |}
      (fun response =>
         let rethrow message :=
           Done (Rejected (Js.orString message "Failed to refine recipe.")) in
         match response with
         | Failed message => rethrow message
         | Responded text =>
             match Js.truthyString text with
             | None => rethrow (Some "No response from Gemini.")
             | Some text =>
                 match JSON_parse text with
                 | inl result => Done (Resolved result)
                 | inr message => rethrow message
                 end
             end
         end).

End Service.
(** The equipment line of the system prompt ([getSystemPrompt]). *)

(** [Object.entries(userSettings.inventory)], in the order of the keys. *)
Definition inventoryEntries (inv : Inventory) : list (string * bool) :=
  [("oven", oven inv); ("blender", blender inv); ("castIron", castIron inv);
   ("wok", wok inv); ("kitchenAid", kitchenAid inv);
   ("nonStickPan", nonStickPan inv); ("airFryer", airFryer inv)].

Definition isUpper (c : ascii) : bool :=
  let n := nat_of_ascii c in (65 <=? n)%nat && (n <=? 90)%nat.

(** [name.replace(/([A-Z])/g, ' $1')]. *)
Fixpoint spaceBeforeCapitals (s : string) : string :=
  match s with
  | EmptyString => EmptyString
  | String c s' =>
      if isUpper c then String " " (String c (spaceBeforeCapitals s'))
      else String c (spaceBeforeCapitals s')
  end.

(** [toLowerCase], on the letters A to Z. *)
Fixpoint toLowerCase (s : string) : string :=
  match s with
  | EmptyString => EmptyString
  | String c s' =>
      String (if isUpper c then ascii_of_nat (nat_of_ascii c + 32) else c)
        (toLowerCase s')
  end.

(** [l.join(sep)]. *)
Fixpoint join (sep : string) (l : list string) : string :=
  match l with
  | [] => ""
  | x :: rest =>
      match rest with
      | [] => x
      | _ :: _ => x +:+ sep +:+ join sep rest
      end
  end.

Definition equipmentList (userSettings : UserSettings) : string :=
  join ", "
    ((fun entry => toLowerCase (spaceBeforeCapitals entry.1))
       <$> List.filter (fun entry => entry.2)
             (inventoryEntries (inventory userSettings))).

(** [equipmentList || 'basic stovetop and pots only']. *)
Definition equipmentLine (userSettings : UserSettings) : string :=
  Js.orString (Some (equipmentList userSettings)) "basic stovetop and pots only".

(** [userSettings.excludedIngredients || 'Meat, Chicken, Fish']. *)
Definition excludedLine (userSettings : UserSettings) : string :=
  Js.orString (Some (excludedIngredients userSettings)) "Meat, Chicken, Fish".

End Gemini.

(** ** The application component ([src/App.tsx]) *)

Module App.

(** The [useState] cells of the component. [currentWeekStart] and
    [shoppingView] only steer what is displayed and are arguments of the
    renderers below. *)
Record State := {
  settings : UserSettings;
  appState : AppState;
  analysis : option RecipeAnalysis;
  activeTab : VariationKey;
  currentIngredients : list IngredientItem;
  currentTitle : string;
  isLoading : bool;
  isRefining : bool;
  refineText : string;
  errorMsg : option string;
  textInput : string;
  selectedImages : list string;
  cookbook : list SavedRecipe;
  weekPlan : list DayPlan;
  checkedItems : gset string;
  selectedRecipeId : option string;
  selectingForDate : option string
}.

(** Functional updates, one per cell: [setX v] is the state after
    [setX(v)]. *)
Definition setSettings (v : UserSettings) (st : State) : State :=
  {| settings := v;
     appState := appState st;
     analysis := analysis st;
     activeTab := activeTab st;
     currentIngredients := currentIngredients st;
     currentTitle := currentTitle st;
     isLoading := isLoading st;
     isRefining := isRefining st;
     refineText := refineText st;
     errorMsg := errorMsg st;
     textInput := textInput st;
     selectedImages := selectedImages st;
     cookbook := cookbook st;
     weekPlan := weekPlan st;
     checkedItems := checkedItems st;
     selectedRecipeId := selectedRecipeId st;
     selectingForDate := selectingForDate st |}.

Definition setAppState (v : AppState) (st : State) : State :=
  {| settings := settings st;
     appState := v;
     analysis := analysis st;
     activeTab := activeTab st;
     currentIngredients := currentIngredients st;
     currentTitle := currentTitle st;
     isLoading := isLoading st;
     isRefining := isRefining st;
     refineText := refineText st;
     errorMsg := errorMsg st;
     textInput := textInput st;
     selectedImages := selectedImages st;
     cookbook := cookbook st;
     weekPlan := weekPlan st;
     checkedItems := checkedItems st;
     selectedRecipeId := selectedRecipeId st;
     selectingForDate := selectingForDate st |}.

Definition setAnalysis (v : option RecipeAnalysis) (st : State) : State :=
  {| settings := settings st;
     appState := appState st;
     analysis := v;
     activeTab := activeTab st;
     currentIngredients := currentIngredients st;
     currentTitle := currentTitle st;
     isLoading := isLoading st;
     isRefining := isRefining st;
     refineText := refineText st;
     errorMsg := errorMsg st;
     textInput := textInput st;
     selectedImages := selectedImages st;
     cookbook := cookbook st;
     weekPlan := weekPlan st;
     checkedItems := checkedItems st;
     selectedRecipeId := selectedRecipeId st;
     selectingForDate := selectingForDate st |}.

Definition setActiveTab (v : VariationKey) (st : State) : State :=
  {| settings := settings st;
     appState := appState st;
     analysis := analysis st;
     activeTab := v;
     currentIngredients := currentIngredients st;
     currentTitle := currentTitle st;
     isLoading := isLoading st;
     isRefining := isRefining st;
     refineText := refineText st;
     errorMsg := errorMsg st;
     textInput := textInput st;
     selectedImages := selectedImages st;
     cookbook := cookbook st;
     weekPlan := weekPlan st;
     checkedItems := checkedItems st;
     selectedRecipeId := selectedRecipeId st;
     selectingForDate := selectingForDate st |}.

Definition setCurrentIngredients (v : list IngredientItem) (st : State) : State :=
  {| settings := settings st;
     appState := appState st;
     analysis := analysis st;
     activeTab := activeTab st;
     currentIngredients := v;
     currentTitle := currentTitle st;
     isLoading := isLoading st;
     isRefining := isRefining st;
     refineText := refineText st;
     errorMsg := errorMsg st;
     textInput := textInput st;
     selectedImages := selectedImages st;
     cookbook := cookbook st;
     weekPlan := weekPlan st;
     checkedItems := checkedItems st;
     selectedRecipeId := selectedRecipeId st;
     selectingForDate := selectingForDate st |}.

Definition setCurrentTitle (v : string) (st : State) : State :=
  {| settings := settings st;
     appState := appState st;
     analysis := analysis st;
     activeTab := activeTab st;
     currentIngredients := currentIngredients st;
     currentTitle := v;
     isLoading := isLoading st;
     isRefining := isRefining st;
     refineText := refineText st;
     errorMsg := errorMsg st;
     textInput := textInput st;
     selectedImages := selectedImages st;
     cookbook := cookbook st;
     weekPlan := weekPlan st;
     checkedItems := checkedItems st;
     selectedRecipeId := selectedRecipeId st;
     selectingForDate := selectingForDate st |}.

Definition setIsLoading (v : bool) (st : State) : State :=
  {| settings := settings st;
     appState := appState st;
     analysis := analysis st;
     activeTab := activeTab st;
     currentIngredients := currentIngredients st;
     currentTitle := currentTitle st;
     isLoading := v;
     isRefining := isRefining st;
     refineText := refineText st;
     errorMsg := errorMsg st;
     textInput := textInput st;
     selectedImages := selectedImages st;
     cookbook := cookbook st;
     weekPlan := weekPlan st;
     checkedItems := checkedItems st;
     selectedRecipeId := selectedRecipeId st;
     selectingForDate := selectingForDate st |}.

Definition setIsRefining (v : bool) (st : State) : State :=
  {| settings := settings st;
     appState := appState st;
     analysis := analysis st;
     activeTab := activeTab st;
     currentIngredients := currentIngredients st;
     currentTitle := currentTitle st;
     isLoading := isLoading st;
     isRefining := v;
     refineText := refineText st;
     errorMsg := errorMsg st;
     textInput := textInput st;
     selectedImages := selectedImages st;
     cookbook := cookbook st;
     weekPlan := weekPlan st;
     checkedItems := checkedItems st;
     selectedRecipeId := selectedRecipeId st;
     selectingForDate := selectingForDate st |}.

Definition setRefineText (v : string) (st : State) : State :=
  {| settings := settings st;
     appState := appState st;
     analysis := analysis st;
     activeTab := activeTab st;
     currentIngredients := currentIngredients st;
     currentTitle := currentTitle st;
     isLoading := isLoading st;
     isRefining := isRefining st;
     refineText := v;
     errorMsg := errorMsg st;
     textInput := textInput st;
     selectedImages := selectedImages st;
     cookbook := cookbook st;
     weekPlan := weekPlan st;
     checkedItems := checkedItems st;
     selectedRecipeId := selectedRecipeId st;
     selectingForDate := selectingForDate st |}.

Definition setErrorMsg (v : option string) (st : State) : State :=
  {| settings := settings st;
     appState := appState st;
     analysis := analysis st;
     activeTab := activeTab st;
     currentIngredients := currentIngredients st;
     currentTitle := currentTitle st;
     isLoading := isLoading st;
     isRefining := isRefining st;
     refineText := refineText st;
     errorMsg := v;
     textInput := textInput st;
     selectedImages := selectedImages st;
     cookbook := cookbook st;
     weekPlan := weekPlan st;
     checkedItems := checkedItems st;
     selectedRecipeId := selectedRecipeId st;
     selectingForDate := selectingForDate st |}.

Definition setTextInput (v : string) (st : State) : State :=
  {| settings := settings st;
     appState := appState st;
     analysis := analysis st;
     activeTab := activeTab st;
     currentIngredients := currentIngredients st;
     currentTitle := currentTitle st;
     isLoading := isLoading st;
     isRefining := isRefining st;
     refineText := refineText st;
     errorMsg := errorMsg st;
     textInput := v;
     selectedImages := selectedImages st;
     cookbook := cookbook st;
     weekPlan := weekPlan st;
     checkedItems := checkedItems st;
     selectedRecipeId := selectedRecipeId st;
     selectingForDate := selectingForDate st |}.

Definition setSelectedImages (v : list string) (st : State) : State :=
  {| settings := settings st;
     appState := appState st;
     analysis := analysis st;
     activeTab := activeTab st;
     currentIngredients := currentIngredients st;
     currentTitle := currentTitle st;
     isLoading := isLoading st;
     isRefining := isRefining st;
     refineText := refineText st;
     errorMsg := errorMsg st;
     textInput := textInput st;
     selectedImages := v;
     cookbook := cookbook st;
     weekPlan := weekPlan st;
     checkedItems := checkedItems st;
     selectedRecipeId := selectedRecipeId st;
     selectingForDate := selectingForDate st |}.

Definition setCookbook (v : list SavedRecipe) (st : State) : State :=
  {| settings := settings st;
     appState := appState st;
     analysis := analysis st;
     activeTab := activeTab st;
     currentIngredients := currentIngredients st;
     currentTitle := currentTitle st;
     isLoading := isLoading st;
     isRefining := isRefining st;
     refineText := refineText st;
     errorMsg := errorMsg st;
     textInput := textInput st;
     selectedImages := selectedImages st;
     cookbook := v;
     weekPlan := weekPlan st;
     checkedItems := checkedItems st;
     selectedRecipeId := selectedRecipeId st;
     selectingForDate := selectingForDate st |}.

Definition setWeekPlan (v : list DayPlan) (st : State) : State :=
  {| settings := settings st;
     appState := appState st;
     analysis := analysis st;
     activeTab := activeTab st;
     currentIngredients := currentIngredients st;
     currentTitle := currentTitle st;
     isLoading := isLoading st;
     isRefining := isRefining st;
     refineText := refineText st;
     errorMsg := errorMsg st;
     textInput := textInput st;
     selectedImages := selectedImages st;
     cookbook := cookbook st;
     weekPlan := v;
     checkedItems := checkedItems st;
     selectedRecipeId := selectedRecipeId st;
     selectingForDate := selectingForDate st |}.

Definition setCheckedItems (v : gset string) (st : State) : State :=
  {| settings := settings st;
     appState := appState st;
     analysis := analysis st;
     activeTab := activeTab st;
     currentIngredients := currentIngredients st;
     currentTitle := currentTitle st;
     isLoading := isLoading st;
     isRefining := isRefining st;
     refineText := refineText st;
     errorMsg := errorMsg st;
     textInput := textInput st;
     selectedImages := selectedImages st;
     cookbook := cookbook st;
     weekPlan := weekPlan st;
     checkedItems := v;
     selectedRecipeId := selectedRecipeId st;
     selectingForDate := selectingForDate st |}.

Definition setSelectedRecipeId (v : option string) (st : State) : State :=
  {| settings := settings st;
     appState := appState st;
     analysis := analysis st;
     activeTab := activeTab st;
     currentIngredients := currentIngredients st;
     currentTitle := currentTitle st;
     isLoading := isLoading st;
     isRefining := isRefining st;
     refineText := refineText st;
     errorMsg := errorMsg st;
     textInput := textInput st;
     selectedImages := selectedImages st;
     cookbook := cookbook st;
     weekPlan := weekPlan st;
     checkedItems := checkedItems st;
     selectedRecipeId := v;
     selectingForDate := selectingForDate st |}.

Definition setSelectingForDate (v : option string) (st : State) : State :=
  {| settings := settings st;
     appState := appState st;
     analysis := analysis st;
     activeTab := activeTab st;
     currentIngredients := currentIngredients st;
     currentTitle := currentTitle st;
     isLoading := isLoading st;
     isRefining := isRefining st;
     refineText := refineText st;
     errorMsg := errorMsg st;
     textInput := textInput st;
     selectedImages := selectedImages st;
     cookbook := cookbook st;
     weekPlan := weekPlan st;
     checkedItems := checkedItems st;
     selectedRecipeId := selectedRecipeId st;
     selectingForDate := v |}.

(** The values of the cells at the first render. *)
Definition DEFAULT_SETTINGS : UserSettings :=
  {| name := "Athlete"; weight := 72; activityLevel := active;
     targetCalories := 700; targetProtein := 40; targetCarbs := 50;
     inventory :=
       {| oven := false; blender := false; castIron := false; wok := false;
          kitchenAid := false; nonStickPan := false; airFryer := false |};
     excludedIngredients := "" |}.

Definition initialState : State :=
  {| settings := DEFAULT_SETTINGS; appState := HOME; analysis := None;
     activeTab := Balanced; currentIngredients := []; currentTitle := "";
     isLoading := false; isRefining := false; refineText := "";
     errorMsg := None; textInput := ""; selectedImages := [];
     cookbook := []; weekPlan := []; checkedItems := ∅;
     selectedRecipeId := None; selectingForDate := None |}.

(** [cookbook.find(r => r.id === rid)], where [rid] may be [null]. *)
Definition findRecipe (cookbook : list SavedRecipe) (rid : option string)
  : option SavedRecipe :=
  List.find (fun r => bool_decide (Some (id r) = rid)) cookbook.

(** *** Effects

    The two hooks that copy the stored ingredients and title of the active
    variation into the edit buffer. Each returns the values it passes to
    [setCurrentIngredients] and [setCurrentTitle], if it calls them. *)

Definition resultsTabSync (st : State) : option (list IngredientItem * string) :=
  match appState st, analysis st with
  | RESULTS, Some a =>
      Some (ingredients (getVariation (variations a) (activeTab st)), a_title a)
  | _, _ => None
  end.

Definition cookbookTabSync (st : State) : option (list IngredientItem * string) :=
  match appState st, Js.truthyString (selectedRecipeId st) with
  | COOKBOOK, Some rid =>
      match findRecipe (cookbook st) (Some rid) with
      | Some recipe =>
          Some (ingredients
                  (getVariation (variations (Types.analysis recipe)) (activeTab st)),
                title recipe)
      | None => None
      end
  | _, _ => None
  end.

Definition setBuffer (u : option (list IngredientItem * string)) (st : State) : State :=
  match u with
  | Some (ings, t) => setCurrentTitle t (setCurrentIngredients ings st)
  | None => st
  end.

(** The render that follows a state change. An effect runs when one of its
    dependencies differs from the previous render: [activeTab], [appState]
    and [analysis] for the first, [activeTab], [selectedRecipeId] and
    [appState] for the second. [analysis] is compared by identity, so
    [analysisReplaced] tells whether the handler stored a new object there.
    Both effects read the state of this render. *)
Definition afterRender (prev : State) (analysisReplaced : bool) (next : State) : State :=
  let tabOrScreen :=
    negb (bool_decide (activeTab prev = activeTab next)
          && bool_decide (appState prev = appState next)) in
  let resultsDeps := tabOrScreen || analysisReplaced in
  let cookbookDeps :=
    tabOrScreen
    || negb (bool_decide (selectedRecipeId prev = selectedRecipeId next)) in
  let st1 := if resultsDeps then setBuffer (resultsTabSync next) next else next in
  if cookbookDeps then setBuffer (cookbookTabSync next) st1 else st1.

(** A synchronous handler that does not touch [analysis], and the render
    after it. *)
Definition dispatch (handler : State -> State) (st : State) : State :=
  afterRender st false (handler st).

(** The tab buttons: [onClick={() => setActiveTab(tab)}]. *)
Definition clickTab (tab : VariationKey) : State -> State :=
  dispatch (setActiveTab tab).

(** *** Editing the buffer *)

(** [l.filter((x, i) => f(x, i))], counting from [i]. *)
Fixpoint filterWithIndex {A} (f : A -> nat -> bool) (i : nat) (l : list A) : list A :=
  match l with
  | [] => []
  | x :: l' =>
      if f x i then x :: filterWithIndex f (S i) l' else filterWithIndex f (S i) l'
  end.

Definition handleRemoveIngredient (index : nat) (st : State) : State :=
  let newIngredients :=
    filterWithIndex (fun _ i => negb (i =? index)%nat) 0 (currentIngredients st) in
  setCurrentIngredients newIngredients st.

(** *** Saving *)

(** [Date.now()] is read twice: once for the id, once for the timestamp. *)
Definition saveNewRecipe (nowId nowTimestamp : Z) (st : State) : State :=
  match analysis st with
  | None => st
  | Some a =>
      let finalAnalysis :=
        {| a_title := currentTitle st;
           original_macros := original_macros a;
           variations :=
             setVariation (variations a) (activeTab st)
               {| ingredients := currentIngredients st;
                  notes := notes (getVariation (variations a) (activeTab st));
                  steps := steps (getVariation (variations a) (activeTab st)) |} |} in
      let newRecipe :=
        {| id := pretty nowId; title := currentTitle st;
           timestamp := nowTimestamp; Types.analysis := finalAnalysis |} in
      setSelectedRecipeId (Some (id newRecipe))
        (setAppState COOKBOOK
           (setSelectedImages []
              (setTextInput ""
                 (setCookbook (newRecipe :: cookbook st) st))))
  end.

(** *** Week plan *)

(** The planner's "+" button of a day. *)
Definition selectDate (dateStr : string) (st : State) : State :=
  setAppState RECIPE_SELECTOR (setSelectingForDate (Some dateStr) st).

Definition assignToDate (recipeId : string) (variation : VariationKey) (st : State)
  : State :=
  match Js.truthyString (selectingForDate st) with
  | None => st
  | Some d =>
      let newPlanItem :=
        {| date := d; Types.recipeId := Some recipeId;
           Types.variation := Some variation |} in
      let st1 :=
        setWeekPlan (filter (fun p => date p <> d) (weekPlan st) ++ [newPlanItem]) st in
      setAppState HOME (setSelectingForDate None st1)
  end.

Definition clearDate (d : string) (st : State) : State :=
  setWeekPlan (filter (fun p => date p <> d) (weekPlan st)) st.

(** The plans of a week plan that are for date [d], in order. *)
Definition plansFor (d : string) (wp : list DayPlan) : list DayPlan :=
  filter (fun p => date p = d) wp.

(** At most one DayPlan per date. *)
Definition onePlanPerDate (wp : list DayPlan) : Prop :=
  NoDup (date <$> wp).

(** *** Analysis *)

Import Async.

Record AnalyzeRequest := {
  q_settings : UserSettings;
  q_images : list string;
  q_text : string
}.

(** [handleAnalyze]: the part before the [await] and its render, the call,
    and the part after it with its render. [finally] clears [isLoading] on
    both paths. *)
Definition handleAnalyze (st : State)
  : Proc AnalyzeRequest (Outcome RecipeAnalysis) State :=
  let st1 :=
    dispatch (fun s => setErrorMsg None (setAppState ANALYZING (setIsLoading true s))) st in
  Await {| q_settings := settings st; q_images := selectedImages st;
           q_text := textInput st |}
    (fun outcome =>
       match outcome with
       | Resolved result =>
           Done (afterRender st1 true
                   (setIsLoading false
                      (setActiveTab Balanced
                         (setAppState RESULTS (setAnalysis (Some result) st1)))))
       | Rejected message =>
           Done (afterRender st1 false
                   (setIsLoading false
                      (setAppState ERROR (setErrorMsg (Some message) st1))))
       end).

(** *** Shopping list ([renderShoppingList]) *)

Record Entry := {
  e_date : string;
  e_title : string;
  e_item : IngredientItem;
  e_id : string
}.

Inductive ShoppingView := RECIPE | ALPHA.

(** A list item of a card of the recipe view. *)
Record Row := {
  r_id : string;
  r_isChecked : bool;
  r_ing : IngredientItem
}.

(** A card of the recipe view: one planned day. *)
Record Card := {
  c_date : string;
  c_title : string;
  c_variation : VariationKey;
  c_rows : list Row
}.

(** A list item of the A-Z view. *)
Record AlphaRow := {
  a_entry : Entry;
  a_isChecked : bool
}.

Inductive Screen :=
| NoMeals
| RecipeView (cards : list (option Card))
| AlphaView (rows : list AlphaRow).

(** The filter of [activePlans]; strings compare by character code. *)
Definition inWeek (startStr endStr : string) (p : DayPlan) : bool :=
  String.leb startStr (date p) && String.leb (date p) endStr
  && bool_decide (recipeId p <> None).

Definition activePlans (startStr endStr : string) (weekPlan : list DayPlan)
  : list DayPlan :=
  List.filter (inWeek startStr endStr) weekPlan.

(** [`${date}-${id}-${idx}`]. *)
Definition lineId (date rid : string) (idx : nat) : string :=
  date +:+ "-" +:+ rid +:+ "-" +:+ pretty idx.

(** What one plan pushes to [allIngredients]. *)
Definition planEntries (cookbook : list SavedRecipe) (plan : DayPlan) : list Entry :=
  match findRecipe cookbook (recipeId plan), variation plan with
  | Some recipe, Some v =>
      imap (fun idx ing =>
              {| e_date := date plan; e_title := title recipe; e_item := ing;
                 e_id := lineId (date plan) (id recipe) idx |})
        (ingredients (getVariation (variations (Types.analysis recipe)) v))
  | _, _ => []
  end.

Definition allIngredients (cookbook : list SavedRecipe) (plans : list DayPlan)
  : list Entry :=
  plans ≫= planEntries cookbook.

(** The card of one plan in the recipe view, [null] when the recipe is not
    found or the plan has no variation. *)
Definition planCard (cookbook : list SavedRecipe) (checked : gset string)
    (plan : DayPlan) : option Card :=
  match findRecipe cookbook (recipeId plan), variation plan with
  | Some recipe, Some v =>
      let variationData := getVariation (variations (Types.analysis recipe)) v in
      Some {| c_date := date plan; c_title := title recipe; c_variation := v;
              c_rows :=
                imap (fun i ing =>
                        let id := lineId (date plan) (id recipe) i in
                        {| r_id := id; r_isChecked := bool_decide (id ∈ checked);
                           r_ing := ing |})
                  (ingredients variationData) |}
  | _, _ => None
  end.

Section ShoppingList.
Variable localeCompare : string -> string -> Z.

Definition alphaSorted (entries : list Entry) : list Entry :=
  Js.sort (fun a b => localeCompare (item (e_item a)) (item (e_item b))) entries.

(** The week is given by the two date strings computed from
    [currentWeekStart]. *)
Definition renderShoppingList (shoppingView : ShoppingView)
    (startStr endStr : string) (st : State) : Screen :=
  let plans := activePlans startStr endStr (weekPlan st) in
  let entries := allIngredients (cookbook st) plans in
  match plans with
  | [] => NoMeals
  | _ :: _ =>
      match shoppingView with
      | RECIPE =>
          RecipeView
            (planCard (cookbook st) (checkedItems st)
               <$> Js.sort (fun a b => localeCompare (date a) (date b)) plans)
      | ALPHA =>
          AlphaView
            ((fun entry =>
                {| a_entry := entry;
                   a_isChecked := bool_decide (e_id entry ∈ checkedItems st) |})
               <$> alphaSorted entries)
      end
  end.
End ShoppingList.

(** The line entries a screen shows, each with its check mark, in display
    order. *)
Definition cardLines (c : Card) : list (Entry * bool) :=
  (fun row =>
     ({| e_date := c_date c; e_title := c_title c; e_item := r_ing row;
         e_id := r_id row |}, r_isChecked row)) <$> c_rows c.

Definition screenLines (s : Screen) : list (Entry * bool) :=
  match s with
  | NoMeals => []
  | RecipeView cards => cards ≫= (fun c => from_option cardLines [] c)
  | AlphaView rows => (fun r => (a_entry r, a_isChecked r)) <$> rows
  end.

(** A line entry with its check mark. *)
Definition marked (checked : gset string) (entry : Entry) : Entry * bool :=
  (entry, bool_decide (e_id entry ∈ checked)).

(** Whether the aggregation takes a plan: the filter of [activePlans] and
    the guard in front of the loop over its ingredients. *)
Definition contributes (startStr endStr : string) (cookbook : list SavedRecipe)
    (p : DayPlan) : bool :=
  inWeek startStr endStr p
  && bool_decide (is_Some (findRecipe cookbook (recipeId p)))
  && bool_decide (is_Some (variation p)).

(** *** Loading from local storage (the effect run on mount) *)

(** What a slot gives: nothing ([getItem] returns [null] or the empty
    string), a text that [JSON.parse] rejects, or a text that parses. *)
Inductive Item :=
| Missing
| Malformed
| Holds (parsed : Json.Value).

Record LocalStorage := {
  ls_cookbook : Item;
  ls_weekPlan : Item;
  ls_userSettings : Item;
  ls_checkedItems : Item
}.

(** The four cells the effect may set, holding what it passed to their
    setters; [None] is a cell left at its initial value. *)
Record Loaded := {
  l_cookbook : option Json.Value;
  l_weekPlan : option Json.Value;
  l_settings : option Json.Value;
  l_checkedItems : option (list Json.Value)
}.

Definition nothingLoaded : Loaded :=
  {| l_cookbook := None; l_weekPlan := None; l_settings := None;
     l_checkedItems := None |}.

(** The effect completes, or an exception leaves it. *)
Inductive LoadResult :=
| Completed (cells : Loaded)
| Uncaught.

Section Load.
Variable StringToNumber : string -> Js.Number.

(** The body of the [try] block; [TypeError] is caught by its [catch]. *)
Definition loadCookbook (parsed : Json.Value) : Json.Result Json.Value :=
  match Json.lengthOf parsed with
  | Json.TypeError => Json.TypeError
  | Json.Ok len =>
      if Json.greaterThanZero StringToNumber len then
        match Json.first parsed with
        | Json.TypeError => Json.TypeError
        | Json.Ok x =>
            match Json.analysisOf x with
            | Json.TypeError => Json.TypeError
            | Json.Ok a =>
                if negb (Json.truthy a) then Json.Ok (Json.Arr [])
                else Json.Ok parsed
            end
        end
      else Json.Ok parsed
  end.

Definition loadFromLocalStorage (ls : LocalStorage) : LoadResult :=
  let cookbookCell :=
    match ls_cookbook ls with
    | Missing | Malformed => None
    | Holds parsed =>
        match loadCookbook parsed with
        | Json.Ok v => Some v
        | Json.TypeError => None
        end
    end in
  match ls_weekPlan ls with
  | Malformed => Uncaught
  | plan =>
      let weekPlanCell := match plan with Holds v => Some v | _ => None end in
      match ls_userSettings ls with
      | Malformed => Uncaught
      | saved =>
          let settingsCell := match saved with Holds v => Some v | _ => None end in
          match ls_checkedItems ls with
          | Malformed => Uncaught
          | Missing =>
              Completed {| l_cookbook := cookbookCell; l_weekPlan := weekPlanCell;
                           l_settings := settingsCell; l_checkedItems := None |}
          | Holds v =>
              match Json.iterate v with
              | Json.TypeError => Uncaught
              | Json.Ok elements =>
                  Completed {| l_cookbook := cookbookCell;
                               l_weekPlan := weekPlanCell;
                               l_settings := settingsCell;
                               l_checkedItems := Some elements |}
              end
          end
      end
  end.
End Load.

(** A stored cookbook has the expected shape when it is an array of objects
    that each carry an analysis. *)
Definition entryHasAnalysis (entry : Json.Value) : bool :=
  match entry with
  | Json.Obj members => Json.truthy (Json.member "analysis" members)
  | _ => false
  end.

Definition cookbookShape (v : Json.Value) : bool :=
  match v with
  | Json.Arr entries => forallb entryHasAnalysis entries
  | _ => false
  end.

(** *** Check marks and kitchen inventory *)

Definition toggleCheck (id : string) (st : State) : State :=
  let newSet := checkedItems st in
  if bool_decide (id ∈ newSet) then setCheckedItems (newSet ∖ {[ id ]}) st
  else setCheckedItems ({[ id ]} ∪ newSet) st.

(** The keys of [UserSettings['inventory']]. *)
Inductive InventoryKey :=
| Oven | Blender | CastIron | Wok | KitchenAid | NonStickPan | AirFryer.

(** [inv[key]]. *)
Definition getInventory (inv : Inventory) (key : InventoryKey) : bool :=
  match key with
  | Oven => oven inv
  | Blender => blender inv
  | CastIron => castIron inv
  | Wok => wok inv
  | KitchenAid => kitchenAid inv
  | NonStickPan => nonStickPan inv
  | AirFryer => airFryer inv
  end.

(** [{...inv, [key]: b}]. *)
Definition setInventory (inv : Inventory) (key : InventoryKey) (b : bool) : Inventory :=
  {| oven := if key is Oven then b else oven inv;
     blender := if key is Blender then b else blender inv;
     castIron := if key is CastIron then b else castIron inv;
     wok := if key is Wok then b else wok inv;
     kitchenAid := if key is KitchenAid then b else kitchenAid inv;
     nonStickPan := if key is NonStickPan then b else nonStickPan inv;
     airFryer := if key is AirFryer then b else airFryer inv |}.

Definition toggleInventory (key : InventoryKey) (st : State) : State :=
  let prev := settings st in
  setSettings
    {| name := name prev; weight := weight prev;
       activityLevel := activityLevel prev;
       targetCalories := targetCalories prev;
       targetProtein := targetProtein prev;
       targetCarbs := targetCarbs prev;
       inventory :=
         setInventory (inventory prev) key (negb (getInventory (inventory prev) key));
       excludedIngredients := excludedIngredients prev |}
    st.

(** *** Images *)

Definition removeImage (index : nat) (st : State) : State :=
  setSelectedImages
    (filterWithIndex (fun _ i => negb (i =? index)%nat) 0 (selectedImages st)) st.

(** *** Cookbook detail *)

(** A card of the cookbook list: [setSelectedRecipeId(recipe.id);
    setActiveTab('Balanced')]. *)
Definition openRecipe (recipe : SavedRecipe) : State -> State :=
  dispatch (fun s => setActiveTab Balanced (setSelectedRecipeId (Some (id recipe)) s)).

(** The object [updateExistingRecipe] puts in place of recipe [r]. *)
Definition withEdits (st : State) (r : SavedRecipe) : SavedRecipe :=
  {| id := id r;
     title := currentTitle st;
     timestamp := timestamp r;
     Types.analysis :=
       {| a_title := currentTitle st;
          original_macros := original_macros (Types.analysis r);
          variations :=
            setVariation (variations (Types.analysis r)) (activeTab st)
              {| ingredients := currentIngredients st;
                 notes :=
                   notes (getVariation (variations (Types.analysis r)) (activeTab st));
                 steps :=
                   steps (getVariation (variations (Types.analysis r)) (activeTab st))
              |} |} |}.

Definition updateExistingRecipe (st : State) : State :=
  match Js.truthyString (selectedRecipeId st) with
  | None => st
  | Some sel =>
      setCookbook
        ((fun r => if bool_decide (id r = sel) then withEdits st r else r)
           <$> cookbook st)
        st
  end.

(** *** Planner *)

(** What the planner shows for a day: the first plan of that date and, if
    there is one, the recipe it names. *)
Definition plannerDay (dateStr : string) (st : State)
  : option DayPlan * option SavedRecipe :=
  let plan := List.find (fun p => bool_decide (date p = dateStr)) (weekPlan st) in
  (plan,
   match plan with
   | Some p => findRecipe (cookbook st) (recipeId p)
   | None => None
   end).

(** *** Refinement *)

Record RefineRequest := {
  rq_settings : UserSettings;
  rq_analysis : RecipeAnalysis;
  rq_instruction : string
}.

Section Refine.
(** [String.prototype.trim]. *)
Variable trim : string -> string.

(** [handleRefine]; the second component of the result is the text passed
    to [alert], if any. *)
Definition handleRefine (st : State)
  : Proc RefineRequest (Outcome RecipeAnalysis) (State * option string) :=
  if decide (trim (refineText st) = "") then Done (st, None)
  else
    let baseAnalysis :=
      match appState st with
      | RESULTS => analysis st
      | _ => Types.analysis <$> findRecipe (cookbook st) (selectedRecipeId st)
      end in
    match baseAnalysis with
    | None => Done (st, None)
    | Some base =>
        let st1 := dispatch (setIsRefining true) st in
        Await {| rq_settings := settings st; rq_analysis := base;
                 rq_instruction := refineText st |}
          (fun outcome =>
             match outcome with
             | Resolved result =>
                 let st2 :=
                   match appState st, Js.truthyString (selectedRecipeId st) with
                   | RESULTS, _ => setAnalysis (Some result) st1
                   | COOKBOOK, Some sel =>
                       setCookbook
                         ((fun r =>
                             if bool_decide (id r = sel)
                             then {| id := id r; title := a_title result;
                                     timestamp := timestamp r;
                                     Types.analysis := result |}
                             else r) <$> cookbook st1)
                         st1
                   | _, _ => st1
                   end in
                 Done (afterRender st1 (bool_decide (appState st = RESULTS))
                         (setIsRefining false (setRefineText "" st2)),
                       None)
             | Rejected message =>
                 Done (afterRender st1 false (setIsRefining false st1),
                       Some ("Refinement failed: " +:+ message))
             end)
    end.
End Refine.

(** *** Saving to local storage (the effect run on every change) *)

Section Persist.
(** The members of the object that [JSON.stringify] followed by
    [JSON.parse] gives for an analysis, and the value it gives for the
    settings. *)
Variable stringifyAnalysis : RecipeAnalysis -> list (string * Json.Value).
Variable stringifySettings : UserSettings -> Json.Value.

Definition variationName (k : VariationKey) : string :=
  match k with
  | Proteins => "Proteins"
  | Balanced => "Balanced"
  | Carbs => "Carbs"
  end.

Definition storedRecipe (r : SavedRecipe) : Json.Value :=
  Json.Obj [("id", Json.Str (id r)); ("title", Json.Str (title r));
            ("timestamp", Json.Num (timestamp r));
            ("analysis", Json.Obj (stringifyAnalysis (Types.analysis r)))].

(** A [null] recipe id is written as [null]; a missing variation is left
    out. *)
Definition storedPlan (p : DayPlan) : Json.Value :=
  Json.Obj
    ([("date", Json.Str (date p));
      ("recipeId", match recipeId p with
                   | Some rid => Json.Str rid
                   | None => Json.Null
                   end)]
     ++ match variation p with
        | Some k => [("variation", Json.Str (variationName k))]
        | None => []
        end).

(** The order in which a [Set] lists its elements is not part of the
    model; [elements] stands for it. *)
Definition saveToLocalStorage (st : State) : LocalStorage :=
  {| ls_cookbook := Holds (Json.Arr (storedRecipe <$> cookbook st));
     ls_weekPlan := Holds (Json.Arr (storedPlan <$> weekPlan st));
     ls_userSettings := Holds (stringifySettings (settings st));
     ls_checkedItems := Holds (Json.Arr (Json.Str <$> elements (checkedItems st))) |}.
End Persist.

(** *** Editing a row of the buffer *)

(** The keys of [IngredientItem]. *)
Inductive IngredientField :=
| AmountField | ItemField | CaloriesField | ProteinField | FatField | CarbsField.

(** [{...ing, [field]: value}], with the text of an input box as the
    value. *)
Definition setField (ing : IngredientItem) (field : IngredientField) (value : string)
  : IngredientItem :=
  {| amount := if field is AmountField then value else amount ing;
     item := if field is ItemField then value else item ing;
     calories := if field is CaloriesField then Js.Str value else calories ing;
     protein := if field is ProteinField then Js.Str value else protein ing;
     fat := if field is FatField then Js.Str value else fat ing;
     carbs := if field is CarbsField then Js.Str value else carbs ing |}.

(** [handleIngredientChange], for the positions the table passes to it: the
    rows of the buffer. A position past the end would make the array grow
    by an object that has the one field only, which [IngredientItem] does
    not represent; the result is [None] there. *)
Definition handleIngredientChange (index : nat) (field : IngredientField)
    (value : string) (st : State) : option State :=
  match currentIngredients st !! index with
  | Some ing =>
      Some (setCurrentIngredients
              (<[index := setField ing field value]> (currentIngredients st)) st)
  | None => None
  end.

(** *** Order and check marks of the shopping list *)

(** A list is ascending under a comparator when no element compares after
    its successor. *)
Fixpoint ascending {A} (cmp : A -> A -> Z) (l : list A) : Prop :=
  match l with
  | [] => True
  | x :: rest =>
      match rest with
      | [] => True
      | y :: _ => cmp x y <= 0 /\ ascending cmp rest
      end
  end.

(** A line whose check mark is negated when its id is [id]. *)
Definition flipMark (id : string) (line : Entry * bool) : Entry * bool :=
  (line.1, if bool_decide (e_id line.1 = id) then negb line.2 else line.2).

End App.

(** ** The step timer ([StepTimer]) *)

Module StepTimer.

(** The cells of the component, and whether the interval created by its
    effect is running. *)
Record Timer := {
  timeLeft : option Z;
  isActive : bool;
  isFinished : bool;
  interval : bool
}.

Definition initial : Timer :=
  {| timeLeft := None; isActive := false; isFinished := false; interval := false |}.

(** [step.timer_seconds && step.timer_seconds > 0]. *)
Definition hasTimer (step : CookingStep) : bool :=
  match timer_seconds step with
  | Some n => negb (n =? 0) && (0 <? n)
  | None => false
  end.

(** The effect, which depends on [isActive]: when that changed, the
    interval of the previous render is cleared and a new one is started if
    the timer is active with a time left. *)
Definition afterRender (prev next : Timer) : Timer :=
  if bool_decide (isActive prev = isActive next) then next
  else
    {| timeLeft := timeLeft next; isActive := isActive next;
       isFinished := isFinished next;
       interval := isActive next && bool_decide (timeLeft next <> None) |}.

Definition startTimer (step : CookingStep) (t : Timer) : Timer :=
  if hasTimer step then
    afterRender t
      {| timeLeft := timer_seconds step; isActive := true; isFinished := false;
         interval := interval t |}
  else t.

Definition resetTimer (t : Timer) : Timer :=
  afterRender t
    {| timeLeft := None; isActive := false; isFinished := false; interval := false |}.

(** One firing of the interval: the updater passed to [setTimeLeft]. *)
Definition tick (t : Timer) : Timer :=
  if interval t then
    match timeLeft t with
    | Some prev =>
        if negb (prev =? 0) && (1 <? prev) then
          afterRender t
            {| timeLeft := Some (prev - 1); isActive := isActive t;
               isFinished := isFinished t; interval := interval t |}
        else
          afterRender t
            {| timeLeft := Some 0; isActive := false; isFinished := true;
               interval := false |}
    | None =>
        afterRender t
          {| timeLeft := Some 0; isActive := false; isFinished := true;
             interval := false |}
    end
  else t.

(** [formatTime]: [Math.floor(seconds / 60)], [seconds % 60]. *)
Definition formatTime (seconds : Z) : string :=
  let m := seconds / 60 in
  let s := Z.rem seconds 60 in
  pretty m +:+ ":" +:+ (if s <? 10 then "0" else "") +:+ pretty s.

End StepTimer.

(** ** The macro chart ([MacroChart]) *)

Module MacroChart.

(** [Math.max(a, b)]: NaN when an argument is NaN, and [+0] above [-0]. *)
Definition max (a b : float) : float :=
  if is_nan a || is_nan b then nan
  else if (a <? b)%float then b
  else if (b <? a)%float then a
  else if get_sign a then b else a.

(** [Math.max(0, val || 0)]. *)
Definition safeVal (val : float) : float := max 0 (Js.orZero val).

(** The values of the three slices: protein, carbs, fat. *)
Definition data (macros : MacroData) : list float :=
  [safeVal (m_protein macros); safeVal (m_carbs macros); safeVal (m_fat macros)].

(** [data.some(d => d.value > 0)]. *)
Definition hasData (macros : MacroData) : bool :=
  existsb (fun value => (0 <? value)%float) (data macros).

(** [macros.calories <= targetCalories]. *)
Definition isCaloriesGood (macros : MacroData) (targetCalories : float) : bool :=
  (m_calories macros <=? targetCalories)%float.

(** [macros.protein >= targetProtein]. *)
Definition isProteinGood (macros : MacroData) (targetProtein : float) : bool :=
  (targetProtein <=? m_protein macros)%float.

(** [macros.carbs >= targetCarbs]. *)
Definition isCarbsGood (macros : MacroData) (targetCarbs : float) : bool :=
  (targetCarbs <=? m_carbs macros)%float.

End MacroChart.

(** ** Sample data for the examples *)

Module Sample.
Import App.

Definition numField (x : float) : Js.Value := Js.OfNumber x.

Definition tofu : IngredientItem :=
  {| amount := "200g"; item := "Tofu"; calories := numField 150;
     protein := numField 20; fat := numField 5; carbs := numField 3 |}.

Definition rice : IngredientItem :=
  {| amount := "100g"; item := "Rice"; calories := numField 130;
     protein := numField 3; fat := numField 0; carbs := numField 29 |}.

Definition beans : IngredientItem :=
  {| amount := "1 can"; item := "beans"; calories := Js.Str "120";
     protein := Js.Str "abc"; fat := Js.Undefined; carbs := Js.Null |}.

(** Rows as the edit form leaves them, with fractions typed in. *)
Definition pinch : IngredientItem :=
  {| amount := "1 pinch"; item := "Salt"; calories := Js.Str "1.5";
     protein := Js.Str ""; fat := Js.Str "0.5"; carbs := Js.Str "-0" |}.

Definition dash : IngredientItem :=
  {| amount := "1 dash"; item := "Oil"; calories := Js.Str "0.5";
     protein := Js.Str "."; fat := Js.Str "1.2.3"; carbs := Js.Undefined |}.

(** A row that holds calories only. *)
Definition kcal (x : float) : IngredientItem :=
  {| amount := ""; item := ""; calories := numField x;
     protein := numField 0; fat := numField 0; carbs := numField 0 |}.

(** A row that holds typed calories only. *)
Definition typedKcal (text : string) : IngredientItem :=
  {| amount := ""; item := ""; calories := Js.Str text;
     protein := Js.Undefined; fat := Js.Undefined; carbs := Js.Undefined |}.

Definition simmer : CookingStep :=
  {| text := "Simmer for ten minutes."; timer_seconds := Some 600 |}.

Definition bowl : RecipeAnalysis :=
  {| a_title := "Tofu Bowl";
     original_macros :=
       {| m_calories := 300; m_protein := 20; m_fat := 6; m_carbs := 40 |};
     variations :=
       {| vProteins := {| ingredients := [tofu; tofu]; notes := "more tofu";
                          steps := [simmer] |};
          vBalanced := {| ingredients := [tofu; rice]; notes := "as is";
                          steps := [simmer] |};
          vCarbs := {| ingredients := [rice; rice; tofu]; notes := "more rice";
                       steps := [] |} |} |}.

Definition recipeA : SavedRecipe :=
  {| id := "recipeA"; title := "Tofu Bowl"; timestamp := 1718000000000;
     Types.analysis := bowl |}.

Definition recipeB : SavedRecipe :=
  {| id := "recipeB"; title := "Rice Bowl"; timestamp := 1718000001000;
     Types.analysis := bowl |}.

Definition monday : DayPlan :=
  {| date := "2024-06-10"; recipeId := Some "recipeA"; variation := Some Balanced |}.

Definition tuesday : DayPlan :=
  {| date := "2024-06-11"; recipeId := Some "recipeB"; variation := Some Carbs |}.

(** A plan stored without the optional [variation] field. *)
Definition wednesday : DayPlan :=
  {| date := "2024-06-12"; recipeId := Some "recipeA"; variation := None |}.

(** Home, with two recipes saved and Monday planned. *)
Definition planned : State :=
  setWeekPlan [monday] (setCookbook [recipeA; recipeB] initialState).

(** Home, with a full week plan; Tuesday was planned first. *)
Definition week : State :=
  setCheckedItems {[ "2024-06-10-recipeA-0" ]}
    (setWeekPlan [tuesday; monday; wednesday] (setCookbook [recipeA; recipeB] initialState)).

(** Results, showing the Balanced variation of the bowl. *)
Definition results : State :=
  setCurrentTitle "Tofu Bowl"
    (setCurrentIngredients [tofu; rice]
       (setAnalysis (Some bowl) (setAppState RESULTS initialState))).

(** Input, with a text typed. *)
Definition typed : State :=
  setTextInput "tofu with rice" (setAppState INPUT initialState).

(** A stored cookbook whose second entry has lost its analysis. *)
Definition storedGood : Json.Value :=
  Json.Obj [("id", Json.Str "1"); ("title", Json.Str "Tofu Bowl");
            ("timestamp", Json.Num 1);
            ("analysis", Json.Obj [("title", Json.Str "Tofu Bowl")])].

Definition storedBad : Json.Value :=
  Json.Obj [("id", Json.Str "2"); ("title", Json.Str "Rice Bowl");
            ("timestamp", Json.Num 2)].

End Sample.

(** * Properties *)

Import App.

(** ** Macro aggregator *)

Section MacroFacts.
Variable StringToNumber : string -> float.

(** [Number(v) || 0] is the contribution of the field. *)
Lemma orZero_contribution v :
  Js.orZero (Js.toNumber StringToNumber v) = contribution StringToNumber v.
Proof.
  unfold Js.orZero, Js.truthy, contribution. cbv zeta.
  destruct (is_nan (Js.toNumber StringToNumber v)); [reflexivity|].
  by destruct (Js.toNumber StringToNumber v =? 0)%float.
Qed.

(** The reducer keeps four running sums, one for each field, each of them
    the running sum of [fieldSum]. *)
Lemma fold_addIngredient ings : forall c p f k,
  fold_left (addIngredient StringToNumber) ings
    {| m_calories := c; m_protein := p; m_fat := f; m_carbs := k |}
  = {| m_calories :=
         fold_left (fun sum i => sum + contribution StringToNumber (calories i))%float
           ings c;
       m_protein :=
         fold_left (fun sum i => sum + contribution StringToNumber (protein i))%float
           ings p;
       m_fat :=
         fold_left (fun sum i => sum + contribution StringToNumber (fat i))%float
           ings f;
       m_carbs :=
         fold_left (fun sum i => sum + contribution StringToNumber (carbs i))%float
           ings k |}.
Proof.
  induction ings as [|i rest IH]; intros c p f k; [reflexivity|].
  cbn [fold_left]. unfold addIngredient at 2. cbn [m_calories m_protein m_fat m_carbs].
  rewrite !orZero_contribution. apply IH.
Qed.

Lemma calculateTotalMacros_sums ings :
  calculateTotalMacros StringToNumber ings
  = {| m_calories := fieldSum StringToNumber calories ings;
       m_protein := fieldSum StringToNumber protein ings;
       m_fat := fieldSum StringToNumber fat ings;
       m_carbs := fieldSum StringToNumber carbs ings |}.
Proof. unfold calculateTotalMacros, zeroMacros. apply fold_addIngredient. Qed.

(** C2. For every sequence of ingredients, [calculateTotalMacros] returns
    the field-wise sum of calories, protein, fat and carbs, each added up
    in binary64 arithmetic in the order of the rows, where a field that is
    missing or does not convert to a number counts for 0; the totals of the
    empty sequence are all 0. *)
Theorem calculateTotalMacros_fieldwise_sum (ings : list IngredientItem) :
  calculateTotalMacros StringToNumber ings
  = {| m_calories := fieldSum StringToNumber calories ings;
       m_protein := fieldSum StringToNumber protein ings;
       m_fat := fieldSum StringToNumber fat ings;
       m_carbs := fieldSum StringToNumber carbs ings |}
  /\ calculateTotalMacros StringToNumber [] = zeroMacros.
Proof. split; [apply calculateTotalMacros_sums | reflexivity]. Qed.

(** A field that does not convert to a number adds nothing. *)
Lemma contribution_not_numeric v :
  is_nan (Js.toNumber StringToNumber v) = true ->
  contribution StringToNumber v = 0%float.
Proof. unfold contribution. cbv zeta. by intros ->. Qed.

Lemma contribution_missing : contribution StringToNumber Js.Undefined = 0%float.
Proof. reflexivity. Qed.

(** A field that converts to a number other than a zero adds that number,
    fractions and infinities included. *)
Lemma contribution_number v :
  Js.truthy (Js.toNumber StringToNumber v) = true ->
  contribution StringToNumber v = Js.toNumber StringToNumber v.
Proof.
  intros H. rewrite <- orZero_contribution. unfold Js.orZero. by rewrite H.
Qed.

(** The sum of a field is the sum of the rows before the last, plus the
    contribution of the last row. *)
Lemma fieldSum_snoc f ings i :
  fieldSum StringToNumber f (ings ++ [i])
  = (fieldSum StringToNumber f ings + contribution StringToNumber (f i))%float.
Proof. unfold fieldSum. by rewrite fold_left_app. Qed.

End MacroFacts.

(** Tofu (150, 20, 5, 3) and rice (130, 3, 0, 29) add up to
    280 kcal, 23 g protein, 5 g fat, 32 g carbs. *)
Example tofu_rice_totals :
  calculateTotalMacros Js.decimalLiteral [Sample.tofu; Sample.rice]
  = {| m_calories := 280; m_protein := 23; m_fat := 5; m_carbs := 32 |}.
Proof. reflexivity. Qed.

(** Text typed in the edit form: a numeric string counts, other text and a
    missing field count for nothing. *)
Example edited_fields_totals :
  calculateTotalMacros Js.decimalLiteral [Sample.beans; Sample.rice]
  = {| m_calories := 250; m_protein := 3; m_fat := 0; m_carbs := 29 |}.
Proof. reflexivity. Qed.

(** A fraction typed in the edit form counts as the fraction: 1.5 and 0.5
    kcal make 2, and 0.5 g of fat stays 0.5. *)
Example fractional_fields_totals :
  calculateTotalMacros Js.decimalLiteral [Sample.pinch; Sample.dash]
  = {| m_calories := 2; m_protein := 0; m_fat := 0.5; m_carbs := 0 |}.
Proof. reflexivity. Qed.

(** The sums are those of binary64 addition: 1 added to 2^53 is lost, and
    the total of 0.1, 0.2 and 0.3 depends on the order of the rows. *)
Example rounded_totals :
  fieldSum Js.decimalLiteral calories
    [Sample.kcal 9007199254740992; Sample.kcal 1]
  = 9007199254740992%float
  /\ fieldSum Js.decimalLiteral calories
       [Sample.typedKcal "0.3"; Sample.typedKcal "0.2"; Sample.typedKcal "0.1"]
     = Js.decimalLiteral "0.6"
  /\ (fieldSum Js.decimalLiteral calories
        [Sample.typedKcal "0.1"; Sample.typedKcal "0.2"; Sample.typedKcal "0.3"]
      =? Js.decimalLiteral "0.6")%float = false.
Proof. repeat split. Qed.

(** ** Week plan *)

Lemma plansFor_app d wp1 wp2 :
  plansFor d (wp1 ++ wp2) = plansFor d wp1 ++ plansFor d wp2.
Proof. apply filter_app. Qed.

Lemma plansFor_removed d wp :
  plansFor d (filter (fun p => date p <> d) wp) = [].
Proof.
  unfold plansFor. induction wp as [|p wp IH]; [reflexivity|].
  rewrite (filter_cons (fun p => date p <> d)).
  destruct (decide (date p <> d)) as [Hne|Heq]; [|exact IH].
  rewrite filter_cons. destruct (decide (date p = d)); [contradiction|exact IH].
Qed.

Lemma plansFor_other d d' wp :
  d' <> d ->
  plansFor d' (filter (fun p => date p <> d) wp) = plansFor d' wp.
Proof.
  intros Hd. unfold plansFor. induction wp as [|p wp IH]; [reflexivity|].
  rewrite (filter_cons (fun p => date p <> d)).
  destruct (decide (date p <> d)) as [Hne|Heq].
  - rewrite !(filter_cons (fun p => date p = d')).
    destruct (decide (date p = d')); by rewrite IH.
  - rewrite IH. rewrite (filter_cons (fun p => date p = d')).
    destruct (decide (date p = d')) as [E|]; [|reflexivity].
    exfalso. apply Heq. congruence.
Qed.

Lemma onePlanPerDate_filter (P : DayPlan -> Prop) `{!forall p, Decision (P p)} wp :
  onePlanPerDate wp -> onePlanPerDate (filter P wp).
Proof.
  unfold onePlanPerDate. induction wp as [|p wp IH]; [done|].
  rewrite fmap_cons, NoDup_cons. intros [Hnotin Hnd].
  rewrite filter_cons. destruct (decide (P p)); [|by apply IH].
  rewrite fmap_cons. apply NoDup_cons. split; [|by apply IH].
  intros Hin. apply Hnotin.
  apply list_elem_of_fmap in Hin as (q & -> & Hq).
  apply list_elem_of_fmap. exists q. split; [done|].
  by apply list_elem_of_filter in Hq as [_ ?].
Qed.

Lemma truthyString_Some o d : Js.truthyString o = Some d -> o = Some d /\ d <> "".
Proof.
  unfold Js.truthyString. destruct o as [s|]; [|done].
  destruct (decide (s = "")); [done|]. intros [= ->]. done.
Qed.

Lemma assignToDate_weekPlan st d r v :
  Js.truthyString (selectingForDate st) = Some d ->
  weekPlan (assignToDate r v st)
  = filter (fun p => date p <> d) (weekPlan st)
    ++ [ {| date := d; recipeId := Some r; variation := Some v |} ].
Proof. intros Hsel. unfold assignToDate. by rewrite Hsel. Qed.

(** C1. With [d] the pending date of the recipe selector, assigning recipe
    [r] in variation [v] leaves exactly one DayPlan for [d], the new
    [(d, r, v)], whatever the plan held before; it keeps the invariant "at
    most one DayPlan per date"; and assigning [(r2, v2)] to [d] afterwards
    leaves exactly [(d, r2, v2)] for [d]. *)
Theorem assignToDate_one_plan_for_date st d r v :
  Js.truthyString (selectingForDate st) = Some d ->
  plansFor d (weekPlan (assignToDate r v st))
    = [ {| date := d; recipeId := Some r; variation := Some v |} ]
  /\ (onePlanPerDate (weekPlan st) -> onePlanPerDate (weekPlan (assignToDate r v st)))
  /\ (forall r2 v2,
        plansFor d (weekPlan (assignToDate r2 v2 (selectDate d (assignToDate r v st))))
        = [ {| date := d; recipeId := Some r2; variation := Some v2 |} ]).
Proof.
  intros Hsel.
  assert (Hone : forall s r' v', Js.truthyString (selectingForDate s) = Some d ->
    plansFor d (weekPlan (assignToDate r' v' s))
    = [ {| date := d; recipeId := Some r'; variation := Some v' |} ]).
  { intros s r' v' Hs. rewrite (assignToDate_weekPlan s d) by done.
    rewrite plansFor_app, plansFor_removed. unfold plansFor.
    rewrite filter_cons. simpl. by destruct (decide (d = d)). }
  split; [by apply Hone|]. split.
  - intros Hinv. rewrite (assignToDate_weekPlan st d) by done.
    unfold onePlanPerDate. rewrite fmap_app. apply NoDup_app.
    split; [by apply onePlanPerDate_filter|]. split; [|apply NoDup_singleton].
    intros x Hx Hx'. apply list_elem_of_fmap in Hx as (q & -> & Hq).
    apply list_elem_of_filter in Hq as [Hne _]. simpl in Hx'.
    apply list_elem_of_singleton in Hx'. contradiction.
  - intros r2 v2. apply Hone. simpl.
    apply truthyString_Some in Hsel as [_ Hd].
    unfold Js.truthyString. by destruct (decide (d = "")).
Qed.

(** Monday holds recipe A, Balanced; assigning recipe B, Carbs to it leaves
    one plan for Monday, B in Carbs. *)
Lemma assignToDate_one_plan_for_date_witness :
  plansFor "2024-06-10"
    (weekPlan (assignToDate "recipeB" Carbs (selectDate "2024-06-10" Sample.planned)))
  = [ {| date := "2024-06-10"; recipeId := Some "recipeB"; variation := Some Carbs |} ].
Proof.
  apply (assignToDate_one_plan_for_date
           (selectDate "2024-06-10" Sample.planned) "2024-06-10" "recipeB" Carbs).
  reflexivity.
Defined.

(** Without a pending date the handler changes nothing. *)
Lemma assignToDate_no_pending_date st r v :
  Js.truthyString (selectingForDate st) = None -> assignToDate r v st = st.
Proof. intros H. unfold assignToDate. by rewrite H. Qed.

(** C9. Clearing date [d] leaves no DayPlan for [d], whatever the plan held,
    and the DayPlans of every other date are the same as before. *)
Theorem clearDate_removes_only_that_date st d :
  plansFor d (weekPlan (clearDate d st)) = []
  /\ (forall d', d' <> d ->
        plansFor d' (weekPlan (clearDate d st)) = plansFor d' (weekPlan st)).
Proof.
  split; [apply plansFor_removed|].
  intros d' Hd'. by apply plansFor_other.
Qed.

Lemma clearDate_removes_only_that_date_witness :
  plansFor "2024-06-10" (weekPlan (clearDate "2024-06-10" Sample.week)) = []
  /\ plansFor "2024-06-11" (weekPlan (clearDate "2024-06-10" Sample.week))
     = plansFor "2024-06-11" (weekPlan Sample.week).
Proof.
  destruct (clearDate_removes_only_that_date Sample.week "2024-06-10") as [H1 H2].
  split; [exact H1|]. apply H2. discriminate.
Defined.

(** ** Renders and effects *)

(** The effects write the edit buffer only. *)
Lemma setBuffer_frame u st :
  cookbook (setBuffer u st) = cookbook st
  /\ textInput (setBuffer u st) = textInput st
  /\ selectedImages (setBuffer u st) = selectedImages st
  /\ appState (setBuffer u st) = appState st
  /\ analysis (setBuffer u st) = analysis st
  /\ activeTab (setBuffer u st) = activeTab st
  /\ errorMsg (setBuffer u st) = errorMsg st
  /\ weekPlan (setBuffer u st) = weekPlan st
  /\ isLoading (setBuffer u st) = isLoading st.
Proof. destruct u as [[ings t]|]; repeat split. Qed.

Lemma afterRender_frame prev replaced next :
  cookbook (afterRender prev replaced next) = cookbook next
  /\ textInput (afterRender prev replaced next) = textInput next
  /\ selectedImages (afterRender prev replaced next) = selectedImages next
  /\ appState (afterRender prev replaced next) = appState next
  /\ analysis (afterRender prev replaced next) = analysis next
  /\ activeTab (afterRender prev replaced next) = activeTab next
  /\ errorMsg (afterRender prev replaced next) = errorMsg next
  /\ weekPlan (afterRender prev replaced next) = weekPlan next
  /\ isLoading (afterRender prev replaced next) = isLoading next.
Proof.
  unfold afterRender.
  repeat match goal with
         | |- context [if ?b then _ else _] => destruct b
         end;
    repeat match goal with
           | |- context [setBuffer ?u ?s] =>
               let H := fresh in
               pose proof (setBuffer_frame u s) as H;
               destruct H as (-> & -> & -> & -> & -> & -> & -> & -> & ->)
           end;
    repeat split.
Qed.

(** In Results, a render whose tab or screen differs from the previous one,
    or whose analysis is a new object, loads the stored ingredients of the
    active tab into the buffer. *)
Lemma afterRender_results prev replaced next a :
  appState next = RESULTS -> analysis next = Some a ->
  activeTab prev <> activeTab next \/ appState prev <> appState next
    \/ replaced = true ->
  currentIngredients (afterRender prev replaced next)
  = ingredients (getVariation (variations a) (activeTab next)).
Proof.
  intros Hs Ha Hdeps. unfold afterRender.
  assert (Hc : cookbookTabSync next = None).
  { unfold cookbookTabSync. by rewrite Hs. }
  assert (Hr : resultsTabSync next
               = Some (ingredients (getVariation (variations a) (activeTab next)),
                       a_title a)).
  { unfold resultsTabSync. by rewrite Hs, Ha. }
  rewrite Hc, Hr.
  assert (Hb : negb (bool_decide (activeTab prev = activeTab next)
                     && bool_decide (appState prev = appState next))
               || replaced = true).
  { destruct Hdeps as [H|[H|H]].
    - by rewrite (bool_decide_eq_false_2 _ H).
    - rewrite (bool_decide_eq_false_2 _ H). by rewrite andb_false_r.
    - rewrite H. apply orb_true_r. }
  rewrite Hb. simpl.
  match goal with |- context [if ?b then _ else _] => destruct b end; reflexivity.
Qed.

(** A render with the same tab, screen, analysis and selected recipe runs
    neither effect. *)
Lemma afterRender_same_deps prev next :
  activeTab prev = activeTab next -> appState prev = appState next ->
  selectedRecipeId prev = selectedRecipeId next ->
  afterRender prev false next = next.
Proof.
  intros H1 H2 H3. unfold afterRender.
  by rewrite !bool_decide_eq_true_2.
Qed.

(** ** Saving from Results *)

Lemma setVariation_same vs k v : getVariation (setVariation vs k v) k = v.
Proof. by destruct k. Qed.

Lemma setVariation_other vs k k' v :
  k' <> k -> getVariation (setVariation vs k v) k' = getVariation vs k'.
Proof. by destruct k, k'. Qed.

(** C3. With an analysis on display, saving from Results puts a new recipe
    at the front of the cookbook: its active variation has the edited buffer
    as ingredients (notes and steps as in the analysis), its two other
    variations are those of the analysis, its title is the edited title; the
    text and image inputs are cleared. *)
Theorem saveNewRecipe_merges_active_variation st a nowId nowTimestamp :
  analysis st = Some a ->
  exists newRecipe,
    cookbook (dispatch (saveNewRecipe nowId nowTimestamp) st)
      = newRecipe :: cookbook st
    /\ ingredients (getVariation (variations (Types.analysis newRecipe)) (activeTab st))
       = currentIngredients st
    /\ notes (getVariation (variations (Types.analysis newRecipe)) (activeTab st))
       = notes (getVariation (variations a) (activeTab st))
    /\ steps (getVariation (variations (Types.analysis newRecipe)) (activeTab st))
       = steps (getVariation (variations a) (activeTab st))
    /\ (forall k, k <> activeTab st ->
          getVariation (variations (Types.analysis newRecipe)) k
          = getVariation (variations a) k)
    /\ title newRecipe = currentTitle st
    /\ textInput (dispatch (saveNewRecipe nowId nowTimestamp) st) = ""
    /\ selectedImages (dispatch (saveNewRecipe nowId nowTimestamp) st) = [].
Proof.
  intros Ha. unfold dispatch.
  destruct (afterRender_frame st false (saveNewRecipe nowId nowTimestamp st))
    as (-> & -> & -> & _).
  unfold saveNewRecipe. rewrite Ha. simpl.
  eexists. split; [reflexivity|]. simpl.
  rewrite setVariation_same. simpl.
  repeat split. intros k Hk. by apply setVariation_other.
Qed.

(** The first ingredient of the Balanced buffer is removed, then the recipe
    is saved: Balanced is the edited buffer, Carbs is untouched. *)
Lemma saveNewRecipe_merges_active_variation_witness :
  exists newRecipe,
    cookbook (dispatch (saveNewRecipe 1718000002000 1718000002000)
                (handleRemoveIngredient 0 Sample.results))
      = [newRecipe]
    /\ ingredients (vBalanced (variations (Types.analysis newRecipe))) = [Sample.rice]
    /\ vCarbs (variations (Types.analysis newRecipe)) = vCarbs (variations Sample.bowl).
Proof.
  destruct (saveNewRecipe_merges_active_variation
              (handleRemoveIngredient 0 Sample.results) Sample.bowl
              1718000002000 1718000002000 eq_refl)
    as (r & Hc & Hi & _ & _ & Ho & _).
  exists r. split; [exact Hc|]. split; [exact Hi|].
  apply (Ho Carbs). discriminate.
Defined.

(** Without an analysis the handler changes nothing. *)
Lemma saveNewRecipe_no_analysis st nowId nowTimestamp :
  analysis st = None -> saveNewRecipe nowId nowTimestamp st = st.
Proof. intros H. unfold saveNewRecipe. by rewrite H. Qed.

(** ** Switching tabs in Results *)

(** C5. In Results, with variation [A] active, switching to a variation
    [B] (a switch changes the active variation, so [B] is not [A]) and back
    to [A] loads the stored ingredients of [A] into the buffer, whatever the
    buffer held before the first switch and whatever was edited while [B]
    was shown. *)
Theorem tab_round_trip_restores_stored st a A B editedB titleB :
  appState st = RESULTS -> analysis st = Some a -> activeTab st = A -> A <> B ->
  currentIngredients
    (clickTab A
       (setCurrentTitle titleB (setCurrentIngredients editedB (clickTab B st))))
  = ingredients (getVariation (variations a) A).
Proof.
  intros Hs Ha HA HAB. unfold clickTab, dispatch.
  set (mid := setCurrentTitle titleB _).
  assert (Hmid : appState mid = RESULTS /\ analysis mid = Some a /\ activeTab mid = B).
  { unfold mid. simpl.
    destruct (afterRender_frame st false (setActiveTab B st))
      as (_ & _ & _ & -> & -> & -> & _).
    simpl. done. }
  destruct Hmid as (Hs' & Ha' & HB).
  rewrite (afterRender_results mid false (setActiveTab A mid) a).
  - reflexivity.
  - exact Hs'.
  - exact Ha'.
  - left. rewrite HB. simpl. congruence.
Qed.

Lemma tab_round_trip_restores_stored_witness :
  currentIngredients
    (clickTab Balanced
       (setCurrentTitle "Rice Bowl"
          (setCurrentIngredients [Sample.rice]
             (clickTab Carbs (handleRemoveIngredient 0 Sample.results)))))
  = [Sample.tofu; Sample.rice].
Proof.
  apply (tab_round_trip_restores_stored
           (handleRemoveIngredient 0 Sample.results) Sample.bowl Balanced Carbs
           [Sample.rice] "Rice Bowl");
    [reflexivity | reflexivity | reflexivity | discriminate].
Defined.

(** Clicking the tab that is already active is no switch: it changes no
    dependency of the effect, so the buffer keeps its edits. Here the first
    ingredient of the Balanced buffer was removed. *)
Lemma same_tab_round_trip_keeps_edits :
  let st := dispatch (handleRemoveIngredient 0) Sample.results in
  appState st = RESULTS /\ analysis st = Some Sample.bowl /\ activeTab st = Balanced
  /\ currentIngredients (clickTab Balanced (clickTab Balanced st)) = [Sample.rice]
  /\ currentIngredients (clickTab Balanced (clickTab Balanced st))
     <> ingredients (getVariation (variations Sample.bowl) Balanced).
Proof. repeat split. discriminate. Qed.

(** Clicking the active tab is no change at all. *)
Lemma clickTab_active st : clickTab (activeTab st) st = st.
Proof.
  unfold clickTab, dispatch.
  rewrite afterRender_same_deps; try reflexivity.
  by destruct st.
Qed.

(** ** Analysis *)

Import Async.

(** C7. [handleAnalyze] calls the gateway once, with the settings, images
    and text of the state it started in. When the call resolves, the state
    is Results with the returned analysis and Balanced active (and the
    buffer holds its Balanced ingredients); when it rejects, the state is
    Error with the rejection's message. *)
Theorem handleAnalyze_single_call st world n :
  let request :=
    {| q_settings := settings st; q_images := selectedImages st;
       q_text := textInput st |} in
  let st' := (run world n (handleAnalyze st)).1 in
  (run world n (handleAnalyze st)).2 = [request]
  /\ match world n request with
     | Resolved result =>
         appState st' = RESULTS /\ analysis st' = Some result
         /\ activeTab st' = Balanced
         /\ currentIngredients st' = ingredients (vBalanced (variations result))
         /\ isLoading st' = false
     | Rejected message =>
         appState st' = ERROR /\ errorMsg st' = Some message
         /\ isLoading st' = false
     end.
Proof.
  simpl. destruct (world n _) as [result|message]; simpl.
  - split; [reflexivity|].
    match goal with |- context [afterRender ?p true ?q] =>
      destruct (afterRender_frame p true q)
        as (_ & _ & _ & Hs & Ha & Ht & _ & _ & Hl);
      pose proof (afterRender_results p true q result eq_refl eq_refl
                    (or_intror (or_intror eq_refl))) as Hi
    end.
    rewrite Hs, Ha, Ht, Hl, Hi. repeat split.
  - split; [reflexivity|].
    match goal with |- context [afterRender ?p false ?q] =>
      destruct (afterRender_frame p false q)
        as (_ & _ & _ & Hs & _ & _ & He & _ & Hl)
    end.
    rewrite Hs, He, Hl. repeat split.
Qed.

(** The gateway itself asks the model at most once, and not at all without
    an API key. *)
Lemma analyzeRecipeWithGemini_requests API_KEY getSystemPrompt JSON_parse
    userSettings images textInput world n :
  length (run world n
            (Gemini.analyzeRecipeWithGemini API_KEY getSystemPrompt JSON_parse
               userSettings images textInput)).2
  = if decide (API_KEY = "") then 0%nat else 1%nat.
Proof.
  unfold Gemini.analyzeRecipeWithGemini.
  destruct (decide (API_KEY = "")); [reflexivity|]. simpl.
  destruct (world n _) as [t|m]; simpl; [|reflexivity].
  destruct (Js.truthyString t); simpl; [|reflexivity].
  by destruct (JSON_parse _).
Qed.

(** ** Shopping list *)

Lemma insertBy_Permutation {A} (cmp : A -> A -> Z) x l :
  Js.insertBy cmp x l ≡ₚ x :: l.
Proof.
  induction l as [|y l IH]; simpl; [done|].
  destruct (cmp x y <=? 0); [done|].
  rewrite IH. apply perm_swap.
Qed.

Lemma sort_Permutation {A} (cmp : A -> A -> Z) l : Js.sort cmp l ≡ₚ l.
Proof.
  induction l as [|x l IH]; simpl; [done|].
  rewrite insertBy_Permutation. by rewrite IH.
Qed.

Lemma fmap_bind_list {A B C} (f : B -> C) (g : A -> list B) (l : list A) :
  f <$> (l ≫= g) = l ≫= (fun x => f <$> g x).
Proof.
  induction l as [|x l IH]; [done|].
  by rewrite !bind_cons, fmap_app, IH.
Qed.

(** The card of a plan shows the entries the plan pushes to
    [allIngredients], in the same order. *)
Lemma planCard_lines cookbook checked p :
  from_option cardLines [] (planCard cookbook checked p)
  = marked checked <$> planEntries cookbook p.
Proof.
  unfold planCard, planEntries.
  destruct (findRecipe cookbook (recipeId p)) as [recipe|]; [|done].
  destruct (variation p) as [v|]; [|done]. simpl.
  unfold cardLines. simpl. by rewrite !fmap_imap.
Qed.

Section ShoppingListFacts.
Variable localeCompare : string -> string -> Z.

(** C4. The A-Z view and the recipe (by-date) view of one week show the same
    line entries (date, recipe title, ingredient, derived id, check mark)
    the same number of times: one is a permutation of the other. *)
Theorem shopping_views_same_entries startStr endStr st :
  screenLines (renderShoppingList localeCompare ALPHA startStr endStr st)
  ≡ₚ screenLines (renderShoppingList localeCompare RECIPE startStr endStr st).
Proof.
  unfold renderShoppingList.
  destruct (activePlans startStr endStr (weekPlan st)) as [|p plans] eqn:Hplans;
    [done|].
  rewrite <- Hplans. clear Hplans. simpl.
  set (active := activePlans startStr endStr (weekPlan st)).
  rewrite <- list_fmap_compose.
  unfold alphaSorted. rewrite sort_Permutation.
  rewrite list_fmap_bind, sort_Permutation.
  unfold allIngredients. rewrite fmap_bind_list.
  erewrite list_bind_ext; [reflexivity| |reflexivity].
  intros plan. simpl. by rewrite planCard_lines.
Qed.

End ShoppingListFacts.

Lemma inWeek_spec startStr endStr p :
  inWeek startStr endStr p = true
  <-> String.leb startStr (date p) = true /\ String.leb (date p) endStr = true
      /\ is_Some (recipeId p).
Proof.
  unfold inWeek. rewrite !andb_true_iff, bool_decide_eq_true.
  rewrite <- not_eq_None_Some. tauto.
Qed.

Lemma findRecipe_Some cookbook rid recipe :
  findRecipe cookbook rid = Some recipe ->
  rid = Some (id recipe) /\ recipe ∈ cookbook.
Proof.
  unfold findRecipe. intros H. apply find_some in H as [Hin Hid].
  apply bool_decide_eq_true in Hid. split; [done|].
  by apply list_elem_of_In.
Qed.

Lemma planEntries_not_contributing startStr endStr cookbook p :
  inWeek startStr endStr p = true ->
  contributes startStr endStr cookbook p = false ->
  planEntries cookbook p = [].
Proof.
  unfold contributes, planEntries. intros ->. simpl.
  destruct (findRecipe cookbook (recipeId p)) as [recipe|]; [|done].
  destruct (variation p) as [v|]; [|done].
  rewrite !bool_decide_eq_true_2 by eauto. done.
Qed.

Lemma allIngredients_contributing startStr endStr cookbook weekPlan :
  allIngredients cookbook (activePlans startStr endStr weekPlan)
  = List.filter (contributes startStr endStr cookbook) weekPlan
    ≫= planEntries cookbook.
Proof.
  unfold allIngredients, activePlans.
  induction weekPlan as [|p wp IH]; [done|]. simpl.
  destruct (inWeek startStr endStr p) eqn:Hin.
  - rewrite bind_cons, IH.
    destruct (contributes startStr endStr cookbook p) eqn:Hc.
    + by rewrite bind_cons.
    + by rewrite (planEntries_not_contributing startStr endStr).
  - rewrite IH. unfold contributes at 2. by rewrite Hin.
Qed.

(** C6, as amended. The aggregation is the concatenation, in plan order, of
    the entries of the contributing plans; a plan contributes exactly when
    its date lies in the closed interval, its recipe id resolves to a
    cookbook entry and its variation is present; and a contributing plan
    gives one entry per ingredient of its variation, the entry at index
    [idx] carrying the plan's date, the recipe's title, the ingredient and
    the id [date-recipeId-idx]. *)
Theorem allIngredients_characterised startStr endStr cookbook weekPlan :
  allIngredients cookbook (activePlans startStr endStr weekPlan)
  = List.filter (contributes startStr endStr cookbook) weekPlan
    ≫= planEntries cookbook
  /\ (forall p,
        contributes startStr endStr cookbook p = true
        <-> String.leb startStr (date p) = true
            /\ String.leb (date p) endStr = true
            /\ is_Some (findRecipe cookbook (recipeId p))
            /\ is_Some (variation p))
  /\ (forall p recipe v rid,
        findRecipe cookbook (recipeId p) = Some recipe ->
        variation p = Some v ->
        recipeId p = Some rid ->
        let ings := ingredients (getVariation (variations (Types.analysis recipe)) v) in
        id recipe = rid
        /\ length (planEntries cookbook p) = length ings
        /\ forall idx ing,
             ings !! idx = Some ing ->
             planEntries cookbook p !! idx
             = Some {| e_date := date p; e_title := title recipe; e_item := ing;
                       e_id := date p +:+ "-" +:+ rid +:+ "-" +:+ pretty idx |}).
Proof.
  split; [apply allIngredients_contributing|]. split.
  - intros p. unfold contributes.
    rewrite !andb_true_iff, !bool_decide_eq_true, inWeek_spec.
    split.
    + intros [[(? & ? & ?) ?] ?]. done.
    + intros (? & ? & Hr & ?). repeat split; try done.
      destruct Hr as [r Hr]. apply findRecipe_Some in Hr as [-> _]. eauto.
  - intros p recipe v rid Hfind Hv Hrid ings.
    pose proof (findRecipe_Some _ _ _ Hfind) as [Hid _].
    rewrite Hrid in Hid. injection Hid as ->.
    split; [done|]. unfold planEntries. rewrite Hfind, Hv.
    split; [apply length_imap|].
    intros idx ing Hing. rewrite list_lookup_imap. fold ings. by rewrite Hing.
Qed.

Lemma allIngredients_characterised_witness :
  planEntries (cookbook Sample.week) Sample.tuesday !! 2%nat
  = Some {| e_date := "2024-06-11"; e_title := "Rice Bowl"; e_item := Sample.tofu;
            e_id := "2024-06-11-recipeB-2" |}.
Proof.
  destruct (allIngredients_characterised "2024-06-10" "2024-06-16"
              (cookbook Sample.week) (weekPlan Sample.week)) as (_ & _ & H).
  destruct (H Sample.tuesday Sample.recipeB Carbs "recipeB" eq_refl eq_refl eq_refl)
    as (_ & _ & Hidx).
  apply (Hidx 2%nat Sample.tofu). reflexivity.
Defined.

(** C6, as stated, fails for a plan without a variation: Wednesday lies in
    the week and its recipe id resolves to a cookbook entry with
    ingredients in every variation, yet the plan contributes no entry. *)
Lemma plan_in_week_with_recipe_and_no_entries :
  String.leb "2024-06-10" (date Sample.wednesday) = true
  /\ String.leb (date Sample.wednesday) "2024-06-16" = true
  /\ findRecipe (cookbook Sample.week) (recipeId Sample.wednesday)
     = Some Sample.recipeA
  /\ Sample.wednesday ∈ weekPlan Sample.week
  /\ contributes "2024-06-10" "2024-06-16" (cookbook Sample.week) Sample.wednesday
     = false
  /\ e_date <$> allIngredients (cookbook Sample.week)
                 (activePlans "2024-06-10" "2024-06-16" (weekPlan Sample.week))
     = ["2024-06-11"; "2024-06-11"; "2024-06-11"; "2024-06-10"; "2024-06-10"].
Proof.
  repeat split. unfold Sample.week. simpl. set_solver.
Qed.

(** C10. A DayPlan without a variation pushes nothing to the list of
    entries and has no card in the recipe view, whatever its date and
    recipe; the entries of a week are those of the week plan without it. *)
Theorem plan_without_variation_contributes_nothing cookbook checked p :
  variation p = None ->
  planEntries cookbook p = []
  /\ planCard cookbook checked p = None
  /\ (forall startStr endStr before after,
        allIngredients cookbook (activePlans startStr endStr (before ++ p :: after))
        = allIngredients cookbook (activePlans startStr endStr (before ++ after))).
Proof.
  intros Hv.
  assert (He : planEntries cookbook p = []).
  { unfold planEntries. rewrite Hv. by destruct (findRecipe _ _). }
  split; [exact He|]. split.
  - unfold planCard. rewrite Hv. by destruct (findRecipe _ _).
  - intros startStr endStr before after. unfold allIngredients, activePlans.
    rewrite !List.filter_app, !bind_app. f_equal. simpl.
    destruct (inWeek startStr endStr p); [|done].
    by rewrite bind_cons, He.
Qed.

Lemma plan_without_variation_contributes_nothing_witness :
  planEntries (cookbook Sample.week) Sample.wednesday = []
  /\ planCard (cookbook Sample.week) (checkedItems Sample.week) Sample.wednesday
     = None.
Proof.
  destruct (plan_without_variation_contributes_nothing
              (cookbook Sample.week) (checkedItems Sample.week) Sample.wednesday
              eq_refl) as (H1 & H2 & _).
  split; [exact H1 | exact H2].
Defined.

(** The week of the sample plan: Tuesday was planned before Monday, so the
    A-Z view lists Tuesday's rice first, and the recipe view starts with
    Monday. Wednesday has no variation and shows nowhere. *)
Example week_alpha_ids :
  (fun l => e_id l.1)
    <$> screenLines
          (renderShoppingList Js.codeCompare ALPHA "2024-06-10" "2024-06-16" Sample.week)
  = ["2024-06-11-recipeB-0"; "2024-06-11-recipeB-1"; "2024-06-10-recipeA-1";
     "2024-06-11-recipeB-2"; "2024-06-10-recipeA-0"].
Proof. reflexivity. Qed.

Example week_recipe_ids :
  (fun l => e_id l.1)
    <$> screenLines
          (renderShoppingList Js.codeCompare RECIPE "2024-06-10" "2024-06-16" Sample.week)
  = ["2024-06-10-recipeA-0"; "2024-06-10-recipeA-1"; "2024-06-11-recipeB-0";
     "2024-06-11-recipeB-1"; "2024-06-11-recipeB-2"].
Proof. reflexivity. Qed.

Example week_checked :
  filter (fun l => l.2 = true)
    (screenLines
       (renderShoppingList Js.codeCompare ALPHA "2024-06-10" "2024-06-16" Sample.week))
  = [({| e_date := "2024-06-10"; e_title := "Tofu Bowl"; e_item := Sample.tofu;
         e_id := "2024-06-10-recipeA-0" |}, true)].
Proof. reflexivity. Qed.

Example other_week_empty :
  renderShoppingList Js.codeCompare ALPHA "2024-06-17" "2024-06-23" Sample.week
  = NoMeals.
Proof. reflexivity. Qed.

(** ** Loading from local storage *)

Section LoadFacts.
Variable StringToNumber : string -> Js.Number.

(** With nothing stored every cell keeps its initial value. *)
Lemma load_nothing :
  loadFromLocalStorage StringToNumber
    {| ls_cookbook := Missing; ls_weekPlan := Missing;
       ls_userSettings := Missing; ls_checkedItems := Missing |}
  = Completed nothingLoaded.
Proof. reflexivity. Qed.

(** The cookbook slot is guarded: a text that does not parse, and a value
    whose inspection throws, leave the cookbook at its initial value. *)
Lemma load_cookbook_guarded item :
  item = Malformed \/ item = Holds Json.Null ->
  loadFromLocalStorage StringToNumber
    {| ls_cookbook := item; ls_weekPlan := Missing;
       ls_userSettings := Missing; ls_checkedItems := Missing |}
  = Completed nothingLoaded.
Proof. by intros [-> | ->]. Qed.

(** A cookbook whose first entry lacks its analysis is replaced by the empty
    cookbook. *)
Lemma load_cookbook_first_entry_checked rest :
  loadCookbook StringToNumber (Json.Arr (Sample.storedBad :: rest))
  = Json.Ok (Json.Arr []).
Proof. reflexivity. Qed.

(** C8, on the code. The three other slots are read without a guard: a
    week plan text that does not parse makes the effect throw, where a
    missing one completes with the defaults; a week plan of the wrong shape
    is stored as it is; and a cookbook whose second entry lacks its analysis
    passes the check of the first entry and is stored as it is. *)
Theorem load_incompatible_slot_not_as_absent :
  loadFromLocalStorage StringToNumber
    {| ls_cookbook := Missing; ls_weekPlan := Malformed;
       ls_userSettings := Missing; ls_checkedItems := Missing |}
  = Uncaught
  /\ loadFromLocalStorage StringToNumber
       {| ls_cookbook := Missing; ls_weekPlan := Holds (Json.Num 7);
          ls_userSettings := Missing; ls_checkedItems := Missing |}
     = Completed {| l_cookbook := None; l_weekPlan := Some (Json.Num 7);
                    l_settings := None; l_checkedItems := None |}
  /\ cookbookShape (Json.Arr [Sample.storedGood; Sample.storedBad]) = false
  /\ loadFromLocalStorage StringToNumber
       {| ls_cookbook := Holds (Json.Arr [Sample.storedGood; Sample.storedBad]);
          ls_weekPlan := Missing; ls_userSettings := Missing;
          ls_checkedItems := Missing |}
     = Completed {| l_cookbook := Some (Json.Arr [Sample.storedGood; Sample.storedBad]);
                    l_weekPlan := None; l_settings := None;
                    l_checkedItems := None |}.
Proof. repeat split. Qed.

(** A text that does not parse in any of the three unguarded slots makes
    the effect throw, whatever the other slots hold. *)
Lemma load_malformed_uncaught ls :
  ls_weekPlan ls = Malformed \/ ls_userSettings ls = Malformed
    \/ ls_checkedItems ls = Malformed ->
  loadFromLocalStorage StringToNumber ls = Uncaught.
Proof.
  unfold loadFromLocalStorage. intros [H|[H|H]]; rewrite H.
  - reflexivity.
  - by destruct (ls_weekPlan ls).
  - by destruct (ls_weekPlan ls), (ls_userSettings ls).
Qed.

End LoadFacts.

(** ** The analysis flow on the sample input *)

Example analyze_resolved :
  let st' := (run (fun _ _ => Resolved Sample.bowl) 0 (handleAnalyze Sample.typed)).1 in
  appState st' = RESULTS /\ analysis st' = Some Sample.bowl
  /\ activeTab st' = Balanced
  /\ currentIngredients st' = [Sample.tofu; Sample.rice]
  /\ currentTitle st' = "Tofu Bowl".
Proof. repeat split. Qed.

Example analyze_rejected :
  let st' :=
    (run (fun _ _ => Rejected "API Key is missing.") 0 (handleAnalyze Sample.typed)).1 in
  appState st' = ERROR /\ errorMsg st' = Some "API Key is missing."
  /\ analysis st' = None /\ textInput st' = "tofu with rice".
Proof. repeat split. Qed.

(** Without an API key the gateway rejects before asking the model; an
    error without a message is reported under the fallback text. *)
Example gateway_without_key getSystemPrompt JSON_parse world :
  run world 0
    (Gemini.analyzeRecipeWithGemini "" getSystemPrompt JSON_parse
       DEFAULT_SETTINGS [] "tofu with rice")
  = (Rejected "API Key is missing.", []).
Proof. reflexivity. Qed.

Example gateway_error_without_message getSystemPrompt JSON_parse :
  (run (fun _ _ => Gemini.Failed None) 0
     (Gemini.analyzeRecipeWithGemini "key" getSystemPrompt JSON_parse
        DEFAULT_SETTINGS [] "tofu with rice")).1
  = Rejected "Failed to analyze recipe.".
Proof. reflexivity. Qed.

(** * Further properties of the component *)

(** ** Check marks *)

(** X1. Toggling a check mark flips the membership of that id and of no
    other id, and toggling the same id twice gives back the state. *)
Theorem toggleCheck_flips_one_id id st :
  (id ∈ checkedItems (toggleCheck id st) <-> id ∉ checkedItems st)
  /\ (forall id', id' <> id ->
        id' ∈ checkedItems (toggleCheck id st) <-> id' ∈ checkedItems st)
  /\ toggleCheck id (toggleCheck id st) = st.
Proof.
  assert (Hnot : id ∉ checkedItems st ∖ {[ id ]}).
  { rewrite elem_of_difference, elem_of_singleton. tauto. }
  assert (Hadd : id ∈ {[ id ]} ∪ checkedItems st).
  { apply elem_of_union_l. by apply elem_of_singleton. }
  split; [|split].
  - unfold toggleCheck.
    destruct (decide (id ∈ checkedItems st)) as [Hmem|Hmem].
    + rewrite (bool_decide_eq_true_2 _ Hmem). simpl. tauto.
    + rewrite (bool_decide_eq_false_2 _ Hmem). simpl. tauto.
  - intros id' Hne. unfold toggleCheck.
    destruct (decide (id ∈ checkedItems st)) as [Hmem|Hmem].
    + rewrite (bool_decide_eq_true_2 _ Hmem). simpl.
      rewrite elem_of_difference, elem_of_singleton. tauto.
    + rewrite (bool_decide_eq_false_2 _ Hmem). simpl.
      rewrite elem_of_union, elem_of_singleton. tauto.
  - unfold toggleCheck.
    destruct (decide (id ∈ checkedItems st)) as [Hmem|Hmem].
    + rewrite (bool_decide_eq_true_2 _ Hmem). simpl.
      rewrite (bool_decide_eq_false_2 _ Hnot).
      destruct st. unfold setCheckedItems. simpl in *. f_equal.
      apply set_eq. intros x.
      rewrite elem_of_union, elem_of_difference, elem_of_singleton.
      destruct (decide (x = id)) as [->|]; tauto.
    + rewrite (bool_decide_eq_false_2 _ Hmem). simpl.
      rewrite (bool_decide_eq_true_2 _ Hadd).
      destruct st. unfold setCheckedItems. simpl in *. f_equal.
      apply set_eq. intros x.
      rewrite elem_of_difference, elem_of_union, elem_of_singleton.
      destruct (decide (x = id)) as [->|]; tauto.
Qed.

Lemma toggleCheck_flips_one_id_witness :
  "2024-06-11-recipeB-0" ∈ checkedItems (toggleCheck "2024-06-10-recipeA-0" Sample.week)
  <-> "2024-06-11-recipeB-0" ∈ checkedItems Sample.week.
Proof.
  destruct (toggleCheck_flips_one_id "2024-06-10-recipeA-0" Sample.week)
    as (_ & H & _).
  apply H. discriminate.
Defined.

(** ** Kitchen inventory *)

(** X2. Toggling an inventory key negates that key, leaves the six other
    keys and every other setting as they were, and toggling it twice gives
    back the state. *)
Theorem toggleInventory_flips_one_key key st :
  getInventory (inventory (settings (toggleInventory key st))) key
    = negb (getInventory (inventory (settings st)) key)
  /\ (forall key', key' <> key ->
        getInventory (inventory (settings (toggleInventory key st))) key'
        = getInventory (inventory (settings st)) key')
  /\ (name (settings (toggleInventory key st)),
      weight (settings (toggleInventory key st)),
      activityLevel (settings (toggleInventory key st)),
      targetCalories (settings (toggleInventory key st)),
      targetProtein (settings (toggleInventory key st)),
      targetCarbs (settings (toggleInventory key st)),
      excludedIngredients (settings (toggleInventory key st)))
     = (name (settings st), weight (settings st), activityLevel (settings st),
        targetCalories (settings st), targetProtein (settings st),
        targetCarbs (settings st), excludedIngredients (settings st))
  /\ toggleInventory key (toggleInventory key st) = st.
Proof.
  split; [|split; [|split]].
  - by destruct key.
  - intros key' Hne. by destruct key, key'.
  - reflexivity.
  - destruct st as [[? ? ? ? ? ? [] ?]]. unfold toggleInventory. simpl.
    destruct key; simpl; by rewrite negb_involutive.
Qed.

Lemma toggleInventory_flips_one_key_witness :
  getInventory (inventory (settings (toggleInventory Wok initialState))) Oven
  = getInventory (inventory (settings initialState)) Oven.
Proof.
  destruct (toggleInventory_flips_one_key Wok initialState) as (_ & H & _).
  apply H. discriminate.
Defined.

(** ** Removing a row by position *)

Lemma filterWithIndex_delete {A} (l : list A) : forall offset index,
  filterWithIndex (fun _ i => negb (i =? offset + index)%nat) offset l
  = take index l ++ drop (S index) l.
Proof.
  induction l as [|x l IH]; intros offset index; simpl.
  - by destruct index.
  - destruct index as [|index].
    + rewrite Nat.add_0_r, Nat.eqb_refl. simpl. rewrite drop_0.
      clear IH. revert offset.
      assert (H : forall k offset, (offset < k)%nat ->
                filterWithIndex (fun (_ : A) i => negb (i =? offset)%nat) k l = l).
      { induction l as [|y l IHl]; intros k offset Hk; simpl; [done|].
        destruct (Nat.eqb_spec k offset); [lia|]. simpl.
        f_equal. apply IHl. lia. }
      intros offset. apply H. lia.
    + destruct (Nat.eqb_spec offset (offset + S index)); [lia|]. simpl.
      f_equal. rewrite <- (IH (S offset) index).
      by replace (offset + S index)%nat with (S offset + index)%nat by lia.
Qed.

(** X3. Removing an ingredient row, or an image, by position gives the rows
    before that position followed by the rows after it; a position past the
    end removes nothing. *)
Theorem remove_by_position index st :
  currentIngredients (handleRemoveIngredient index st)
    = take index (currentIngredients st) ++ drop (S index) (currentIngredients st)
  /\ selectedImages (removeImage index st)
     = take index (selectedImages st) ++ drop (S index) (selectedImages st)
  /\ ((length (currentIngredients st) <= index)%nat ->
        currentIngredients (handleRemoveIngredient index st) = currentIngredients st)
  /\ ((length (selectedImages st) <= index)%nat ->
        selectedImages (removeImage index st) = selectedImages st).
Proof.
  assert (H1 : currentIngredients (handleRemoveIngredient index st)
               = take index (currentIngredients st)
                 ++ drop (S index) (currentIngredients st)).
  { unfold handleRemoveIngredient. simpl.
    apply (filterWithIndex_delete (currentIngredients st) 0 index). }
  assert (H2 : selectedImages (removeImage index st)
               = take index (selectedImages st) ++ drop (S index) (selectedImages st)).
  { unfold removeImage. simpl.
    apply (filterWithIndex_delete (selectedImages st) 0 index). }
  split; [exact H1|]. split; [exact H2|]. split; intros Hlen.
  - rewrite H1, take_ge, drop_ge by lia. apply app_nil_r.
  - rewrite H2, take_ge, drop_ge by lia. apply app_nil_r.
Qed.

Lemma remove_by_position_witness :
  currentIngredients (handleRemoveIngredient 5 Sample.results)
  = currentIngredients Sample.results.
Proof.
  destruct (remove_by_position 5 Sample.results) as (_ & _ & H & _).
  apply H. simpl. lia.
Defined.

(** ** The planner after an assignment or a clearing *)

Lemma find_date_removed d (wp : list DayPlan) :
  List.find (fun p => bool_decide (date p = d)) (filter (fun p => date p <> d) wp)
  = None.
Proof.
  induction wp as [|p wp IH]; [done|].
  rewrite filter_cons. destruct (decide (date p <> d)) as [Hne|]; [|done].
  simpl. by rewrite (bool_decide_eq_false_2 _ Hne).
Qed.

Lemma find_date_other d d' (wp : list DayPlan) :
  d' <> d ->
  List.find (fun p => bool_decide (date p = d')) (filter (fun p => date p <> d) wp)
  = List.find (fun p => bool_decide (date p = d')) wp.
Proof.
  intros Hd. induction wp as [|p wp IH]; [done|].
  rewrite filter_cons. destruct (decide (date p <> d)) as [Hne|Heq]; simpl.
  - by rewrite IH.
  - rewrite IH. rewrite bool_decide_eq_false_2; [done|].
    intros E. apply Heq. congruence.
Qed.

Lemma find_app_None {A} (f : A -> bool) l1 l2 :
  List.find f l1 = None -> List.find f (l1 ++ l2) = List.find f l2.
Proof.
  induction l1 as [|x l1 IH]; [done|]. simpl.
  destruct (f x); [done|exact IH].
Qed.

Lemma find_app_Some {A} (f : A -> bool) l1 l2 x :
  List.find f l1 = Some x -> List.find f (l1 ++ l2) = Some x.
Proof.
  induction l1 as [|y l1 IH]; [done|]. simpl.
  destruct (f y); [done|exact IH].
Qed.

(** X4. After assigning recipe [r] in variation [v] to the pending date
    [d], the planner shows that plan (and the recipe of that id) for [d],
    and shows for every other day what it showed before. *)
Theorem plannerDay_after_assign st d r v :
  Js.truthyString (selectingForDate st) = Some d ->
  plannerDay d (assignToDate r v st)
    = (Some {| date := d; recipeId := Some r; variation := Some v |},
       findRecipe (cookbook st) (Some r))
  /\ (forall d', d' <> d ->
        plannerDay d' (assignToDate r v st) = plannerDay d' st).
Proof.
  intros Hsel. unfold plannerDay.
  rewrite (assignToDate_weekPlan st d r v Hsel).
  assert (Hcb : cookbook (assignToDate r v st) = cookbook st).
  { unfold assignToDate. by rewrite Hsel. }
  rewrite Hcb. split.
  - rewrite find_app_None by apply find_date_removed. simpl.
    by rewrite bool_decide_eq_true_2.
  - intros d' Hd'.
    destruct (List.find (fun p => bool_decide (date p = d')) (weekPlan st))
      as [p|] eqn:Hfind.
    + erewrite find_app_Some; [done|]. by rewrite find_date_other.
    + rewrite find_app_None by (by rewrite find_date_other). simpl.
      rewrite bool_decide_eq_false_2; [done|]. simpl. congruence.
Qed.

Lemma plannerDay_after_assign_witness :
  plannerDay "2024-06-10"
    (assignToDate "recipeB" Carbs (selectDate "2024-06-10" Sample.planned))
  = (Some {| date := "2024-06-10"; recipeId := Some "recipeB";
             variation := Some Carbs |},
     findRecipe (cookbook (selectDate "2024-06-10" Sample.planned)) (Some "recipeB")).
Proof.
  apply (plannerDay_after_assign (selectDate "2024-06-10" Sample.planned)
           "2024-06-10" "recipeB" Carbs).
  reflexivity.
Defined.

(** X5. After clearing date [d] the planner shows no plan for [d], and
    shows for every other day what it showed before; clearing is
    idempotent, and clearing [d] after an assignment to [d] leaves the
    week plan that clearing [d] alone leaves. *)
Theorem plannerDay_after_clear st d :
  plannerDay d (clearDate d st) = (None, None)
  /\ (forall d', d' <> d -> plannerDay d' (clearDate d st) = plannerDay d' st)
  /\ clearDate d (clearDate d st) = clearDate d st
  /\ (forall r v, Js.truthyString (selectingForDate st) = Some d ->
        weekPlan (clearDate d (assignToDate r v st)) = weekPlan (clearDate d st)).
Proof.
  split; [|split; [|split]].
  - unfold plannerDay, clearDate. simpl. by rewrite find_date_removed.
  - intros d' Hd'. unfold plannerDay, clearDate. simpl.
    by rewrite find_date_other.
  - unfold clearDate, setWeekPlan. simpl. f_equal.
    apply list_filter_filter_l. done.
  - intros r v Hsel. unfold clearDate at 1. simpl.
    rewrite (assignToDate_weekPlan st d r v Hsel).
    rewrite filter_app, list_filter_filter_l by done.
    rewrite filter_cons. simpl.
    destruct (decide (d <> d)); [done|]. by rewrite app_nil_r.
Qed.

Lemma plannerDay_after_clear_witness :
  plannerDay "2024-06-11" (clearDate "2024-06-10" Sample.week)
  = plannerDay "2024-06-11" Sample.week.
Proof.
  destruct (plannerDay_after_clear Sample.week "2024-06-10") as (_ & H & _).
  apply H. discriminate.
Defined.

(** ** Cookbook detail *)

(** A render changes nothing but the edit buffer. *)
Lemma afterRender_buffer_only prev replaced next :
  afterRender prev replaced next
  = setCurrentTitle (currentTitle (afterRender prev replaced next))
      (setCurrentIngredients (currentIngredients (afterRender prev replaced next))
         next).
Proof.
  unfold afterRender.
  destruct next. unfold setBuffer.
  repeat match goal with
         | |- context [if ?b then _ else _] => destruct b
         | |- context [match ?u with Some _ => _ | None => _ end] =>
             destruct u as [[? ?]|]
         end; reflexivity.
Qed.

Lemma afterRender_selection prev replaced next :
  selectedRecipeId (afterRender prev replaced next) = selectedRecipeId next
  /\ checkedItems (afterRender prev replaced next) = checkedItems next
  /\ refineText (afterRender prev replaced next) = refineText next
  /\ isRefining (afterRender prev replaced next) = isRefining next
  /\ settings (afterRender prev replaced next) = settings next
  /\ selectingForDate (afterRender prev replaced next) = selectingForDate next.
Proof. rewrite afterRender_buffer_only. repeat split. Qed.

(** In Cookbook detail, a render whose tab, screen or selected recipe
    differs from the previous one loads the stored ingredients of the
    active tab and the stored title of the selected recipe. *)
Lemma afterRender_cookbook prev replaced next sel r :
  appState next = COOKBOOK ->
  Js.truthyString (selectedRecipeId next) = Some sel ->
  findRecipe (cookbook next) (Some sel) = Some r ->
  activeTab prev <> activeTab next \/ appState prev <> appState next
    \/ selectedRecipeId prev <> selectedRecipeId next ->
  currentIngredients (afterRender prev replaced next)
    = ingredients (getVariation (variations (Types.analysis r)) (activeTab next))
  /\ currentTitle (afterRender prev replaced next) = title r.
Proof.
  intros Hs Hsel Hfind Hdeps. unfold afterRender.
  assert (Hr : resultsTabSync next = None).
  { unfold resultsTabSync. by rewrite Hs. }
  assert (Hc : cookbookTabSync next
               = Some (ingredients
                         (getVariation (variations (Types.analysis r)) (activeTab next)),
                       title r)).
  { unfold cookbookTabSync. by rewrite Hs, Hsel, Hfind. }
  rewrite Hr, Hc.
  assert (Hb : negb (bool_decide (activeTab prev = activeTab next)
                     && bool_decide (appState prev = appState next))
               || negb (bool_decide (selectedRecipeId prev = selectedRecipeId next))
               = true).
  { destruct Hdeps as [H|[H|H]]; rewrite (bool_decide_eq_false_2 _ H).
    - done.
    - by rewrite andb_false_r.
    - apply orb_true_r. }
  rewrite Hb.
  match goal with |- context [if ?b then _ else _] => destruct b end; done.
Qed.

Lemma findRecipe_fmap (f : SavedRecipe -> SavedRecipe) cookbook rid :
  (forall r, id (f r) = id r) ->
  findRecipe (f <$> cookbook) rid = f <$> findRecipe cookbook rid.
Proof.
  intros Hid. unfold findRecipe.
  induction cookbook as [|r cb IH]; [done|]. simpl. rewrite Hid.
  destruct (bool_decide (Some (id r) = rid)); [done|exact IH].
Qed.

Lemma updateExistingRecipe_cookbook st sel :
  Js.truthyString (selectedRecipeId st) = Some sel ->
  cookbook (updateExistingRecipe st)
  = (fun r => if bool_decide (id r = sel) then withEdits st r else r)
      <$> cookbook st.
Proof. intros H. unfold updateExistingRecipe. by rewrite H. Qed.

(** X6. With a recipe selected, "Save Changes" rewrites the cookbook in
    place: the ids and timestamps stay as they were, in the same order; a
    recipe with another id is untouched; a recipe with the selected id gets
    the edited title, the edit buffer as the ingredients of the active
    variation (notes and steps kept), and keeps its two other variations. *)
Theorem updateExistingRecipe_in_place st sel :
  Js.truthyString (selectedRecipeId st) = Some sel ->
  id <$> cookbook (updateExistingRecipe st) = id <$> cookbook st
  /\ timestamp <$> cookbook (updateExistingRecipe st) = timestamp <$> cookbook st
  /\ (forall i r, cookbook st !! i = Some r -> id r <> sel ->
        cookbook (updateExistingRecipe st) !! i = Some r)
  /\ (forall i r, cookbook st !! i = Some r -> id r = sel ->
        exists r',
          cookbook (updateExistingRecipe st) !! i = Some r'
          /\ title r' = currentTitle st
          /\ a_title (Types.analysis r') = currentTitle st
          /\ getVariation (variations (Types.analysis r')) (activeTab st)
             = {| ingredients := currentIngredients st;
                  notes := notes (getVariation (variations (Types.analysis r))
                                    (activeTab st));
                  steps := steps (getVariation (variations (Types.analysis r))
                                    (activeTab st)) |}
          /\ (forall k, k <> activeTab st ->
                getVariation (variations (Types.analysis r')) k
                = getVariation (variations (Types.analysis r)) k)).
Proof.
  intros Hsel. rewrite (updateExistingRecipe_cookbook st sel Hsel).
  split; [|split; [|split]].
  - rewrite <- list_fmap_compose. apply list_fmap_ext.
    intros i r _. simpl. by destruct (bool_decide (id r = sel)).
  - rewrite <- list_fmap_compose. apply list_fmap_ext.
    intros i r _. simpl. by destruct (bool_decide (id r = sel)).
  - intros i r Hi Hne. rewrite list_lookup_fmap, Hi. simpl.
    by rewrite (bool_decide_eq_false_2 _ Hne).
  - intros i r Hi Heq. exists (withEdits st r).
    rewrite list_lookup_fmap, Hi. simpl.
    rewrite (bool_decide_eq_true_2 _ Heq).
    split; [done|]. split; [done|]. split; [done|]. split.
    + apply setVariation_same.
    + intros k Hk. by apply setVariation_other.
Qed.

Lemma updateExistingRecipe_in_place_witness :
  id <$> cookbook (updateExistingRecipe
                     (handleRemoveIngredient 0 (openRecipe Sample.recipeA
                        (setAppState COOKBOOK Sample.planned))))
  = ["recipeA"; "recipeB"].
Proof.
  apply (updateExistingRecipe_in_place
           (handleRemoveIngredient 0 (openRecipe Sample.recipeA
              (setAppState COOKBOOK Sample.planned))) "recipeA").
  reflexivity.
Defined.

(** Without a selected recipe "Save Changes" does nothing. *)
Lemma updateExistingRecipe_nothing_selected st :
  Js.truthyString (selectedRecipeId st) = None -> updateExistingRecipe st = st.
Proof. intros H. unfold updateExistingRecipe. by rewrite H. Qed.

(** Two clicks on different tabs in Cookbook detail. *)
Lemma clickTab_twice_in_cookbook st sel r A B editedB titleB :
  appState st = COOKBOOK ->
  Js.truthyString (selectedRecipeId st) = Some sel ->
  findRecipe (cookbook st) (Some sel) = Some r ->
  activeTab st = A -> A <> B ->
  currentIngredients
    (clickTab A (setCurrentTitle titleB (setCurrentIngredients editedB (clickTab B st))))
    = ingredients (getVariation (variations (Types.analysis r)) A)
  /\ currentTitle
       (clickTab A (setCurrentTitle titleB (setCurrentIngredients editedB (clickTab B st))))
     = title r.
Proof.
  intros Hs Hsel Hfind HA HAB. unfold clickTab, dispatch.
  set (mid := setCurrentTitle titleB _).
  assert (Hmid : appState mid = COOKBOOK /\ selectedRecipeId mid = selectedRecipeId st
                 /\ cookbook mid = cookbook st /\ activeTab mid = B).
  { unfold mid. simpl.
    destruct (afterRender_frame st false (setActiveTab B st))
      as (-> & _ & _ & -> & _ & -> & _).
    destruct (afterRender_selection st false (setActiveTab B st)) as (-> & _).
    simpl. done. }
  destruct Hmid as (Hs' & Hsel' & Hcb' & HB). clearbody mid.
  apply (afterRender_cookbook mid false (setActiveTab A mid) sel r).
  - exact Hs'.
  - simpl. by rewrite Hsel'.
  - simpl. by rewrite Hcb'.
  - left. rewrite HB. simpl. congruence.
Qed.

(** X7. In Cookbook detail with variation [A] active, switching to a
    different variation [B] and back without "Save Changes" loads the
    stored ingredients of [A] and the stored title of the selected recipe:
    the edits of the buffer are dropped. *)
Theorem cookbook_tab_round_trip_restores_stored st sel r A B editedB titleB :
  appState st = COOKBOOK ->
  Js.truthyString (selectedRecipeId st) = Some sel ->
  findRecipe (cookbook st) (Some sel) = Some r ->
  activeTab st = A -> A <> B ->
  currentIngredients
    (clickTab A (setCurrentTitle titleB (setCurrentIngredients editedB (clickTab B st))))
    = ingredients (getVariation (variations (Types.analysis r)) A)
  /\ currentTitle
       (clickTab A (setCurrentTitle titleB (setCurrentIngredients editedB (clickTab B st))))
     = title r.
Proof. apply clickTab_twice_in_cookbook. Qed.

Lemma cookbook_tab_round_trip_restores_stored_witness :
  currentIngredients
    (clickTab Balanced
       (setCurrentTitle "x"
          (setCurrentIngredients []
             (clickTab Carbs
                (handleRemoveIngredient 0
                   (openRecipe Sample.recipeA (setAppState COOKBOOK Sample.planned)))))))
  = [Sample.tofu; Sample.rice].
Proof.
  apply (cookbook_tab_round_trip_restores_stored
           (handleRemoveIngredient 0
              (openRecipe Sample.recipeA (setAppState COOKBOOK Sample.planned)))
           "recipeA" Sample.recipeA Balanced Carbs [] "x");
    [reflexivity | reflexivity | reflexivity | reflexivity | discriminate].
Defined.

(** X8. In Cookbook detail, after "Save Changes" the edits survive a switch
    to a different variation and back: the buffer and the title come back
    as they were saved. *)
Theorem cookbook_saved_edits_survive_tab_round_trip st sel r A B :
  appState st = COOKBOOK ->
  Js.truthyString (selectedRecipeId st) = Some sel ->
  findRecipe (cookbook st) (Some sel) = Some r ->
  activeTab st = A -> A <> B ->
  currentIngredients (clickTab A (clickTab B (dispatch updateExistingRecipe st)))
    = currentIngredients st
  /\ currentTitle (clickTab A (clickTab B (dispatch updateExistingRecipe st)))
     = currentTitle st.
Proof.
  intros Hs Hsel Hfind HA HAB.
  set (saved := dispatch updateExistingRecipe st).
  assert (Hsaved : saved = updateExistingRecipe st).
  { unfold saved, dispatch. apply afterRender_same_deps;
      unfold updateExistingRecipe; by rewrite Hsel. }
  assert (Hfacts : appState saved = COOKBOOK
                   /\ Js.truthyString (selectedRecipeId saved) = Some sel
                   /\ findRecipe (cookbook saved) (Some sel) = Some (withEdits st r)
                   /\ activeTab saved = A).
  { rewrite Hsaved. rewrite (updateExistingRecipe_cookbook st sel Hsel).
    unfold updateExistingRecipe. rewrite Hsel. simpl.
    repeat split; try done.
    rewrite findRecipe_fmap, Hfind.
    - simpl. apply findRecipe_Some in Hfind as [[= <-] _].
      by rewrite bool_decide_eq_true_2.
    - intros r0. by destruct (bool_decide (id r0 = sel)). }
  destruct Hfacts as (Hs' & Hsel' & Hfind' & HA').
  pose proof (clickTab_twice_in_cookbook saved sel (withEdits st r) A B
                (currentIngredients (clickTab B saved)) (currentTitle (clickTab B saved))
                Hs' Hsel' Hfind' HA' HAB) as [Hi Ht].
  assert (Hmid : setCurrentTitle (currentTitle (clickTab B saved))
                   (setCurrentIngredients (currentIngredients (clickTab B saved))
                      (clickTab B saved))
                 = clickTab B saved).
  { by destruct (clickTab B saved). }
  rewrite Hmid in Hi, Ht. rewrite Hi, Ht. simpl.
  rewrite HA. by rewrite setVariation_same.
Qed.

Lemma cookbook_saved_edits_survive_tab_round_trip_witness :
  currentIngredients
    (clickTab Balanced
       (clickTab Carbs
          (dispatch updateExistingRecipe
             (handleRemoveIngredient 0
                (openRecipe Sample.recipeA (setAppState COOKBOOK Sample.planned))))))
  = [Sample.rice].
Proof.
  apply (cookbook_saved_edits_survive_tab_round_trip
           (handleRemoveIngredient 0
              (openRecipe Sample.recipeA (setAppState COOKBOOK Sample.planned)))
           "recipeA" Sample.recipeA Balanced Carbs);
    [reflexivity | reflexivity | reflexivity | reflexivity | discriminate].
Defined.

(** X9. Opening a recipe from the cookbook list shows its Balanced
    variation: the buffer holds the Balanced ingredients and the title of
    the first cookbook entry with that id. *)
Theorem openRecipe_loads_balanced st recipe shown :
  appState st = COOKBOOK ->
  Js.truthyString (selectedRecipeId st) = None ->
  id recipe <> "" ->
  findRecipe (cookbook st) (Some (id recipe)) = Some shown ->
  activeTab (openRecipe recipe st) = Balanced
  /\ selectedRecipeId (openRecipe recipe st) = Some (id recipe)
  /\ currentIngredients (openRecipe recipe st)
     = ingredients (vBalanced (variations (Types.analysis shown)))
  /\ currentTitle (openRecipe recipe st) = title shown.
Proof.
  intros Hs Hnone Hid Hfind. unfold openRecipe, dispatch.
  set (next := setActiveTab Balanced _).
  destruct (afterRender_frame st false next) as (_ & _ & _ & _ & _ & -> & _).
  destruct (afterRender_selection st false next) as (-> & _).
  split; [done|]. split; [done|].
  apply (afterRender_cookbook st false next (id recipe) shown).
  - exact Hs.
  - simpl. unfold Js.truthyString. by destruct (decide (id recipe = "")).
  - exact Hfind.
  - right. right. simpl. intros E. rewrite E in Hnone. simpl in Hnone.
    by destruct (decide (id recipe = "")).
Qed.

Lemma openRecipe_loads_balanced_witness :
  currentIngredients (openRecipe Sample.recipeA (setAppState COOKBOOK Sample.planned))
  = [Sample.tofu; Sample.rice].
Proof.
  apply (openRecipe_loads_balanced (setAppState COOKBOOK Sample.planned)
           Sample.recipeA Sample.recipeA);
    [reflexivity | reflexivity | discriminate | reflexivity].
Defined.

(** ** Refinement *)

(** A render on a screen other than Results and Cookbook runs no effect
    body. *)
Lemma afterRender_other_screen prev replaced next :
  appState next <> RESULTS -> appState next <> COOKBOOK ->
  afterRender prev replaced next = next.
Proof.
  intros H1 H2. unfold afterRender.
  assert (Hr : resultsTabSync next = None).
  { unfold resultsTabSync. by destruct (appState next). }
  assert (Hc : cookbookTabSync next = None).
  { unfold cookbookTabSync. by destruct (appState next). }
  rewrite Hr, Hc. simpl.
  by repeat match goal with |- context [if ?b then _ else _] => destruct b end.
Qed.

Lemma setIsRefining_twice b st : setIsRefining b (setIsRefining (negb b) st) = setIsRefining b st.
Proof. reflexivity. Qed.

Lemma dispatch_setIsRefining b st : dispatch (setIsRefining b) st = setIsRefining b st.
Proof. unfold dispatch. by apply afterRender_same_deps. Qed.

Section RefineFacts.
Variable trim : string -> string.

(** X10. In Results with an analysis and a non-blank instruction,
    [handleRefine] calls the gateway once with the settings, the analysis
    on display and the instruction. When the call resolves, the analysis is
    the returned one, the buffer holds the ingredients of its active
    variation and its title (edits of the buffer are overwritten), the
    instruction is cleared and the active tab is kept. When it rejects, the
    alert shows "Refinement failed: " and the message, and nothing but the
    refining flag has changed. *)
Theorem handleRefine_in_results st a world n :
  appState st = RESULTS -> analysis st = Some a -> trim (refineText st) <> "" ->
  let request :=
    {| rq_settings := settings st; rq_analysis := a;
       rq_instruction := refineText st |} in
  let out := run world n (handleRefine trim st) in
  out.2 = [request]
  /\ match world n request with
     | Resolved result =>
         out.1.2 = None
         /\ analysis out.1.1 = Some result
         /\ currentIngredients out.1.1
            = ingredients (getVariation (variations result) (activeTab st))
         /\ currentTitle out.1.1 = a_title result
         /\ refineText out.1.1 = ""
         /\ activeTab out.1.1 = activeTab st
         /\ appState out.1.1 = RESULTS
         /\ isRefining out.1.1 = false
     | Rejected message =>
         out.1.2 = Some ("Refinement failed: " +:+ message)
         /\ out.1.1 = setIsRefining false st
     end.
Proof.
  intros Hs Ha Htrim. unfold handleRefine.
  destruct (decide (trim (refineText st) = "")); [contradiction|].
  rewrite Hs, Ha. simpl.
  destruct (world n _) as [result|message]; simpl.
  - split; [reflexivity|]. split; [reflexivity|].
    rewrite dispatch_setIsRefining.
    match goal with |- context [afterRender ?p true ?q] =>
      pose proof (afterRender_frame p true q)
        as (_ & _ & _ & Hst & Han & Htab & _);
      pose proof (afterRender_selection p true q) as (_ & _ & Hrt & Hir & _);
      pose proof (afterRender_buffer_only p true q) as Hbuf;
      pose proof (afterRender_results p true q result Hs eq_refl
                    (or_intror (or_intror eq_refl))) as Hi
    end.
    rewrite Hst, Han, Htab, Hrt, Hir, Hi. simpl.
    repeat split; try done.
    unfold afterRender, resultsTabSync, cookbookTabSync. simpl.
    rewrite Hs. simpl. rewrite orb_true_r. simpl.
    by match goal with |- context [if ?b then _ else _] => destruct b end.
  - split; [reflexivity|]. split; [reflexivity|].
    rewrite dispatch_setIsRefining.
    rewrite afterRender_same_deps by reflexivity. reflexivity.
Qed.

(** X11. A blank instruction, or no analysis to start from, ends
    [handleRefine] at once: the gateway is not called, nothing is alerted
    and the state is the same. *)
Theorem handleRefine_guards st world n :
  trim (refineText st) = ""
  \/ (appState st = RESULTS /\ analysis st = None)
  \/ (appState st <> RESULTS
      /\ findRecipe (cookbook st) (selectedRecipeId st) = None) ->
  run world n (handleRefine trim st) = ((st, None), []).
Proof.
  intros H. unfold handleRefine.
  destruct (decide (trim (refineText st) = "")); [reflexivity|].
  destruct H as [H|[[Hs Ha]|[Hs Hf]]]; [contradiction| |].
  - by rewrite Hs, Ha.
  - rewrite Hf. by destruct (appState st).
Qed.

(** X12. In Cookbook detail with a non-blank instruction, [handleRefine]
    sends the stored analysis of the selected recipe. When the call
    resolves, the selected recipe holds the returned analysis and its title
    (id and timestamp kept) and the other recipes are untouched; the edit
    buffer and the edited title are not reloaded: they stay as they were
    before the call. *)
Theorem handleRefine_in_cookbook st sel r result world n :
  appState st = COOKBOOK ->
  Js.truthyString (selectedRecipeId st) = Some sel ->
  findRecipe (cookbook st) (Some sel) = Some r ->
  trim (refineText st) <> "" ->
  let request :=
    {| rq_settings := settings st; rq_analysis := Types.analysis r;
       rq_instruction := refineText st |} in
  let out := run world n (handleRefine trim st) in
  world n request = Resolved result ->
  out.2 = [request]
  /\ findRecipe (cookbook out.1.1) (Some sel)
     = Some {| id := id r; title := a_title result; timestamp := timestamp r;
               Types.analysis := result |}
  /\ (forall i r0, cookbook st !! i = Some r0 -> id r0 <> sel ->
        cookbook out.1.1 !! i = Some r0)
  /\ currentIngredients out.1.1 = currentIngredients st
  /\ currentTitle out.1.1 = currentTitle st
  /\ refineText out.1.1 = "".
Proof.
  intros Hs Hsel Hfind Htrim request out Hworld.
  apply truthyString_Some in Hsel as Hsel'. destruct Hsel' as [Hsome Hne].
  unfold out, handleRefine.
  destruct (decide (trim (refineText st) = "")); [contradiction|].
  rewrite Hs, Hsel, Hsome, Hfind. simpl. fold request. rewrite Hworld. simpl.
  rewrite dispatch_setIsRefining.
  rewrite afterRender_same_deps by reflexivity. simpl.
  split; [reflexivity|]. split; [|split; [|done]].
  - rewrite findRecipe_fmap.
    + rewrite Hfind. simpl.
      apply findRecipe_Some in Hfind as [[= <-] _].
      by rewrite bool_decide_eq_true_2.
    + intros r0. by destruct (bool_decide (id r0 = sel)).
  - intros i r0 Hi Hr0. rewrite list_lookup_fmap, Hi. simpl.
    by rewrite (bool_decide_eq_false_2 _ Hr0).
Qed.

End RefineFacts.

Lemma handleRefine_in_results_witness :
  (run (fun _ _ => Rejected "quota") 0
     (handleRefine (fun s => s) (setRefineText "add mushrooms" Sample.results))).1.1
  = setIsRefining false (setRefineText "add mushrooms" Sample.results).
Proof.
  pose proof (handleRefine_in_results (fun s => s)
                (setRefineText "add mushrooms" Sample.results)
                Sample.bowl (fun _ _ => Rejected "quota") 0 eq_refl eq_refl) as H.
  destruct H as (_ & _ & H); [discriminate|]. exact H.
Defined.

Lemma handleRefine_guards_witness :
  run (fun _ _ => Resolved Sample.bowl) 0 (handleRefine (fun s => s) Sample.results)
  = ((Sample.results, None), []).
Proof.
  apply (handleRefine_guards (fun s => s) Sample.results). left. reflexivity.
Defined.

Lemma handleRefine_in_cookbook_witness :
  currentIngredients
    (run (fun _ _ => Resolved Sample.bowl) 0
       (handleRefine (fun s => s)
          (setRefineText "add mushrooms"
             (handleRemoveIngredient 0
                (openRecipe Sample.recipeB (setAppState COOKBOOK Sample.planned)))))).1.1
  = [Sample.rice].
Proof.
  apply (handleRefine_in_cookbook (fun s => s)
           (setRefineText "add mushrooms"
              (handleRemoveIngredient 0
                 (openRecipe Sample.recipeB (setAppState COOKBOOK Sample.planned))))
           "recipeB" Sample.recipeB Sample.bowl (fun _ _ => Resolved Sample.bowl) 0);
    [reflexivity | reflexivity | reflexivity | discriminate | reflexivity].
Defined.

(** ** The gateway *)

Lemma orString_nonempty message fallback :
  fallback <> "" -> Js.orString message fallback <> "".
Proof.
  intros Hf. unfold Js.orString, Js.truthyString.
  destruct message as [m|]; [|done].
  by destruct (decide (m = "")).
Qed.

Section GatewayFacts.
Variable API_KEY : string.
Variable getSystemPrompt : UserSettings -> string.
Variable JSON_parse : string -> RecipeAnalysis + option string.
Variable refinementPrompt : RecipeAnalysis -> string -> string.

(** X13. Whatever the model service does, a rejection of either gateway
    function carries a message that is not empty: the message of the
    failure, or a fixed text when the failure has none. *)
Theorem gateway_rejections_have_a_message world n message :
  (forall userSettings images textInput,
     (run world n
        (Gemini.analyzeRecipeWithGemini API_KEY getSystemPrompt JSON_parse
           userSettings images textInput)).1 = Rejected message ->
     message <> "")
  /\ (forall userSettings currentAnalysis instruction,
        (run world n
           (Gemini.refineRecipeWithGemini API_KEY getSystemPrompt JSON_parse
              refinementPrompt userSettings currentAnalysis instruction)).1
        = Rejected message ->
        message <> "").
Proof.
  split.
  - intros userSettings images textInput.
    unfold Gemini.analyzeRecipeWithGemini.
    destruct (decide (API_KEY = "")); simpl; [by intros [= <-]|].
    destruct (world n _) as [t|m]; simpl.
    + destruct (Js.truthyString t); simpl; [|by intros [= <-]].
      destruct (JSON_parse _); simpl; [done|].
      intros [= <-]. by apply orString_nonempty.
    + intros [= <-]. by apply orString_nonempty.
  - intros userSettings currentAnalysis instruction.
    unfold Gemini.refineRecipeWithGemini.
    destruct (decide (API_KEY = "")); simpl; [by intros [= <-]|].
    destruct (world n _) as [t|m]; simpl.
    + destruct (Js.truthyString t); simpl; [|by intros [= <-]].
      destruct (JSON_parse _); simpl; [done|].
      intros [= <-]. by apply orString_nonempty.
    + intros [= <-]. by apply orString_nonempty.
Qed.

(** X14. [refineRecipeWithGemini] asks the model once when there is an API
    key and not at all without one; the request has a single text part, and
    the call resolves exactly when the model answers with a non-empty text
    that parses. *)
Theorem refineRecipeWithGemini_requests userSettings currentAnalysis instruction
    world n :
  let out :=
    run world n
      (Gemini.refineRecipeWithGemini API_KEY getSystemPrompt JSON_parse
         refinementPrompt userSettings currentAnalysis instruction) in
  (API_KEY = "" -> out = (Rejected "API Key is missing.", []))
  /\ (API_KEY <> "" ->
      exists request,
        out.2 = [request]
        /\ Gemini.parts request
           = [Gemini.Text (refinementPrompt currentAnalysis instruction)]
        /\ forall result,
             out.1 = Resolved result
             <-> exists text,
                   world n request = Gemini.Responded (Some text)
                   /\ text <> "" /\ JSON_parse text = inl result).
Proof.
  simpl. unfold Gemini.refineRecipeWithGemini. split; intros Hkey.
  - by destruct (decide (API_KEY = "")).
  - destruct (decide (API_KEY = "")); [contradiction|]. simpl.
    set (request :=
           {| Gemini.model := "gemini-2.5-pro";
              Gemini.parts := [Gemini.Text (refinementPrompt currentAnalysis instruction)];
              Gemini.systemInstruction := getSystemPrompt userSettings;
              Gemini.responseMimeType := "application/json" |}).
    exists request.
    destruct (world n request) as [[t|]|m] eqn:Hw; simpl.
    + unfold Js.truthyString. destruct (decide (t = "")) as [->|Hne]; simpl.
      * repeat split; try done. intros (text & [= <-] & Hn & _). done.
      * destruct (JSON_parse t) as [res|msg] eqn:Hp; simpl.
        -- repeat split; try done.
           ++ intros [= <-]. exists t. done.
           ++ intros (text & [= <-] & _ & Hp'). congruence.
        -- repeat split; try done. intros (text & [= <-] & _ & Hp'). congruence.
    + repeat split; try done. intros (text & [=] & _).
    + repeat split; try done. intros (text & [=] & _).
Qed.

End GatewayFacts.

Lemma gateway_rejections_have_a_message_witness :
  "Failed to analyze recipe." <> "".
Proof.
  destruct (gateway_rejections_have_a_message "key" (fun _ => "prompt")
              (fun _ => inr None) (fun _ _ => "refine")
              (fun _ _ => Gemini.Failed None) 0 "Failed to analyze recipe.")
    as [H _].
  apply (H DEFAULT_SETTINGS [] "tofu"). reflexivity.
Defined.

Lemma refineRecipeWithGemini_requests_witness :
  run (fun _ _ => Gemini.Failed None) 0
    (Gemini.refineRecipeWithGemini "" (fun _ => "prompt") (fun _ => inr None)
       (fun _ _ => "refine") DEFAULT_SETTINGS Sample.bowl "add mushrooms")
  = (Rejected "API Key is missing.", []).
Proof.
  destruct (refineRecipeWithGemini_requests "" (fun _ => "prompt") (fun _ => inr None)
              (fun _ _ => "refine") DEFAULT_SETTINGS Sample.bowl "add mushrooms"
              (fun _ _ => Gemini.Failed None) 0) as [H _].
  apply H. reflexivity.
Defined.

(** ** What an analysis leaves alone *)

(** X15. Whether the analysis call resolves or rejects, [handleAnalyze]
    leaves the typed text, the chosen images, the cookbook, the week plan,
    the settings and the check marks as they were; when it rejects, the
    previous analysis and the edit buffer are still there as well. *)
Theorem handleAnalyze_keeps_inputs st world n :
  let st' := (run world n (handleAnalyze st)).1 in
  (textInput st', selectedImages st', cookbook st', weekPlan st', settings st',
   checkedItems st')
  = (textInput st, selectedImages st, cookbook st, weekPlan st, settings st,
     checkedItems st)
  /\ (forall message,
        world n {| q_settings := settings st; q_images := selectedImages st;
                   q_text := textInput st |} = Rejected message ->
        (analysis st', currentIngredients st', currentTitle st', activeTab st')
        = (analysis st, currentIngredients st, currentTitle st, activeTab st)).
Proof.
  simpl.
  assert (Hpre : dispatch (fun s => setErrorMsg None
                                      (setAppState ANALYZING (setIsLoading true s))) st
                 = setErrorMsg None (setAppState ANALYZING (setIsLoading true st))).
  { unfold dispatch. by apply afterRender_other_screen. }
  rewrite Hpre.
  destruct (world n _) as [result|message]; simpl.
  - split; [|discriminate].
    match goal with |- context [afterRender ?p true ?q] =>
      rewrite (afterRender_buffer_only p true q) end.
    reflexivity.
  - rewrite afterRender_other_screen by done. simpl.
    split; [reflexivity|]. intros m _. reflexivity.
Qed.

Lemma handleAnalyze_keeps_inputs_witness :
  analysis (run (fun _ _ => Rejected "offline") 0
              (handleAnalyze (setAppState INPUT Sample.results))).1
  = Some Sample.bowl.
Proof.
  destruct (handleAnalyze_keeps_inputs (setAppState INPUT Sample.results)
              (fun _ _ => Rejected "offline") 0) as [_ H].
  exact (f_equal (fun t => t.1.1.1) (H "offline" eq_refl)).
Defined.

(** ** The ids of the shopping list *)

Lemma lineId_inj d rid : Inj (=) (=) (lineId d rid).
Proof.
  intros i j H. unfold lineId in H.
  do 4 apply String.app_inj in H.
  by apply (inj pretty) in H.
Qed.

(** X16. The ids of the entries a plan contributes are made of the plan's
    date, the recipe's id and the position alone, whatever the ingredients
    are, and no two entries of one plan share an id. *)
Theorem planEntries_ids_by_position cookbook p recipe v :
  findRecipe cookbook (recipeId p) = Some recipe ->
  variation p = Some v ->
  e_id <$> planEntries cookbook p
    = lineId (date p) (id recipe)
        <$> seq 0 (length (ingredients
                             (getVariation (variations (Types.analysis recipe)) v)))
  /\ NoDup (e_id <$> planEntries cookbook p).
Proof.
  intros Hfind Hv.
  assert (Hids : e_id <$> planEntries cookbook p
                 = lineId (date p) (id recipe)
                     <$> seq 0 (length (ingredients
                                   (getVariation (variations (Types.analysis recipe)) v)))).
  { unfold planEntries. rewrite Hfind, Hv. rewrite fmap_imap.
    apply (imap_seq_0 _ (lineId (date p) (id recipe))). }
  split; [exact Hids|]. rewrite Hids.
  apply NoDup_fmap_2; [apply lineId_inj | apply NoDup_seq].
Qed.

Lemma planEntries_ids_by_position_witness :
  e_id <$> planEntries (cookbook Sample.week) Sample.monday
  = ["2024-06-10-recipeA-0"; "2024-06-10-recipeA-1"].
Proof.
  apply (planEntries_ids_by_position (cookbook Sample.week) Sample.monday
           Sample.recipeA Balanced); reflexivity.
Defined.

(** ** Saving and loading *)

Section PersistFacts.
Variable StringToNumber : string -> Js.Number.
Variable stringifyAnalysis : RecipeAnalysis -> list (string * Json.Value).
Variable stringifySettings : UserSettings -> Json.Value.

Lemma storedRecipe_has_analysis r :
  entryHasAnalysis (storedRecipe stringifyAnalysis r) = true.
Proof. reflexivity. Qed.

Lemma loadCookbook_stored cb :
  loadCookbook StringToNumber (Json.Arr (storedRecipe stringifyAnalysis <$> cb))
  = Json.Ok (Json.Arr (storedRecipe stringifyAnalysis <$> cb)).
Proof.
  destruct cb as [|r cb]; [reflexivity|].
  rewrite fmap_cons.
  unfold loadCookbook, Json.lengthOf, Json.greaterThanZero, Json.toNumber.
  match goal with |- context [0 <? ?z] => destruct (0 <? z) eqn:Hpos end.
  - reflexivity.
  - apply Z.ltb_ge in Hpos. simpl length in Hpos. lia.
Qed.

(** X17. What the save effect writes, the load effect reads back without
    throwing and without resetting anything: each of the four cells
    receives the stored value of its slot, for every state; and the stored
    cookbook has an analysis in each entry. *)
Theorem load_after_save st :
  loadFromLocalStorage StringToNumber
    (saveToLocalStorage stringifyAnalysis stringifySettings st)
  = Completed
      {| l_cookbook := Some (Json.Arr (storedRecipe stringifyAnalysis <$> cookbook st));
         l_weekPlan := Some (Json.Arr (storedPlan <$> weekPlan st));
         l_settings := Some (stringifySettings (settings st));
         l_checkedItems := Some (Json.Str <$> elements (checkedItems st)) |}
  /\ cookbookShape (Json.Arr (storedRecipe stringifyAnalysis <$> cookbook st)) = true.
Proof.
  split.
  - unfold loadFromLocalStorage, saveToLocalStorage. simpl.
    by rewrite loadCookbook_stored.
  - simpl. induction (cookbook st) as [|r cb IH]; [reflexivity|].
    rewrite fmap_cons. simpl. exact IH.
Qed.

End PersistFacts.

(** ** The equipment line of the prompt *)

Example equipmentList_all :
  Gemini.equipmentList
    {| name := "A"; weight := 70; activityLevel := active; targetCalories := 700;
       targetProtein := 40; targetCarbs := 50;
       inventory :=
         {| oven := true; blender := true; castIron := true; wok := true;
            kitchenAid := true; nonStickPan := true; airFryer := true |};
       excludedIngredients := "" |}
  = "oven, blender, cast iron, wok, kitchen aid, non stick pan, air fryer".
Proof. reflexivity. Qed.

(** X18. The prompt names the basic equipment exactly when no item of the
    kitchen inventory is enabled; otherwise it lists the enabled items. *)
Theorem equipmentLine_fallback_iff_nothing_enabled userSettings :
  (Gemini.equipmentLine userSettings = "basic stovetop and pots only"
   <-> inventory userSettings = inventory DEFAULT_SETTINGS)
  /\ (Gemini.equipmentList userSettings = ""
      <-> inventory userSettings = inventory DEFAULT_SETTINGS).
Proof.
  destruct userSettings as [? ? ? ? ? ? [o b c w k p a] ?].
  unfold Gemini.equipmentLine, Gemini.equipmentList. simpl inventory.
  destruct o, b, c, w, k, p, a;
    (split; split; intros H; first [reflexivity | discriminate H]).
Qed.

(** ** Editing a row and the totals *)

Section EditFacts.
Variable StringToNumber : string -> float.

(** The sum of a field over a list with one row replaced: the sum of the
    rows before it, then the new row, then the rows after it. *)
Lemma fieldSum_insert (f : IngredientItem -> Js.Value)
    (l : list IngredientItem) (i : nat) new :
  (i < length l)%nat ->
  fieldSum StringToNumber f (<[i := new]> l)
  = fold_left (fun sum r => (sum + contribution StringToNumber (f r))%float)
      (drop (S i) l)
      (fieldSum StringToNumber f (take i l) + contribution StringToNumber (f new))%float.
Proof.
  intros Hi. unfold fieldSum.
  rewrite insert_take_drop by exact Hi.
  by rewrite fold_left_app.
Qed.

(** The sum of a field depends on the values of that field only. *)
Lemma fieldSum_ext (f : IngredientItem -> Js.Value) l1 l2 :
  f <$> l1 = f <$> l2 ->
  fieldSum StringToNumber f l1 = fieldSum StringToNumber f l2.
Proof.
  unfold fieldSum. generalize 0%float.
  revert l2. induction l1 as [|x l1 IH]; intros [|y l2] start Heq; try done.
  simpl in Heq. injection Heq as Hxy Hrest. simpl. rewrite Hxy. by apply IH.
Qed.

Lemma fmap_insert_same (f : IngredientItem -> Js.Value)
    (l : list IngredientItem) (i : nat) old new :
  l !! i = Some old -> f new = f old -> f <$> <[i := new]> l = f <$> l.
Proof.
  intros Hi Hf. rewrite list_fmap_insert, Hf.
  apply list_insert_id. by rewrite list_lookup_fmap, Hi.
Qed.

(** X19. Editing a field of a row of the buffer keeps the number of rows
    and changes that row only. The total of every field other than the
    edited one stays as it was, so an edit of the amount or of the name
    leaves all four totals as they were; the total of any field is the sum
    of the rows before the edited one, then the edited row, then the rows
    after it, added in that order. *)
Theorem handleIngredientChange_totals index field value st st' old :
  handleIngredientChange index field value st = Some st' ->
  currentIngredients st !! index = Some old ->
  length (currentIngredients st') = length (currentIngredients st)
  /\ currentIngredients st' !! index = Some (setField old field value)
  /\ (forall j, j <> index -> currentIngredients st' !! j = currentIngredients st !! j)
  /\ (forall f : IngredientItem -> Js.Value,
        f (setField old field value) = f old ->
        fieldSum StringToNumber f (currentIngredients st')
        = fieldSum StringToNumber f (currentIngredients st))
  /\ (field <> CaloriesField ->
        m_calories (calculateTotalMacros StringToNumber (currentIngredients st'))
        = m_calories (calculateTotalMacros StringToNumber (currentIngredients st)))
  /\ (field <> ProteinField ->
        m_protein (calculateTotalMacros StringToNumber (currentIngredients st'))
        = m_protein (calculateTotalMacros StringToNumber (currentIngredients st)))
  /\ (field <> FatField ->
        m_fat (calculateTotalMacros StringToNumber (currentIngredients st'))
        = m_fat (calculateTotalMacros StringToNumber (currentIngredients st)))
  /\ (field <> CarbsField ->
        m_carbs (calculateTotalMacros StringToNumber (currentIngredients st'))
        = m_carbs (calculateTotalMacros StringToNumber (currentIngredients st)))
  /\ (field = AmountField \/ field = ItemField ->
        calculateTotalMacros StringToNumber (currentIngredients st')
        = calculateTotalMacros StringToNumber (currentIngredients st))
  /\ (forall f : IngredientItem -> Js.Value,
        fieldSum StringToNumber f (currentIngredients st')
        = fold_left (fun sum r => (sum + contribution StringToNumber (f r))%float)
            (drop (S index) (currentIngredients st))
            (fieldSum StringToNumber f (take index (currentIngredients st))
             + contribution StringToNumber (f (setField old field value)))%float).
Proof.
  intros Hedit Hold. unfold handleIngredientChange in Hedit.
  rewrite Hold in Hedit. injection Hedit as <-. simpl.
  assert (Hlt : (index < length (currentIngredients st))%nat)
    by (by apply lookup_lt_Some in Hold).
  assert (Hsame : forall f : IngredientItem -> Js.Value,
            f (setField old field value) = f old ->
            fieldSum StringToNumber f
              (<[index := setField old field value]> (currentIngredients st))
            = fieldSum StringToNumber f (currentIngredients st)).
  { intros f Hf. apply fieldSum_ext. by apply (fmap_insert_same f _ _ old). }
  split; [apply length_insert|]. split.
  { by apply list_lookup_insert_eq. }
  split.
  { intros j Hj. by apply list_lookup_insert_ne. }
  split; [exact Hsame|].
  rewrite !calculateTotalMacros_sums. cbn [m_calories m_protein m_fat m_carbs].
  repeat split.
  - intros Hf. apply Hsame. by destruct field.
  - intros Hf. apply Hsame. by destruct field.
  - intros Hf. apply Hsame. by destruct field.
  - intros Hf. apply Hsame. by destruct field.
  - intros Hf. f_equal; apply Hsame; by destruct Hf as [-> | ->].
  - intros f. by apply fieldSum_insert.
Qed.

End EditFacts.

Lemma handleIngredientChange_totals_witness :
  m_protein (calculateTotalMacros Js.decimalLiteral
               [setField Sample.tofu CaloriesField "1.5"; Sample.rice])
  = m_protein (calculateTotalMacros Js.decimalLiteral [Sample.tofu; Sample.rice]).
Proof.
  destruct (handleIngredientChange_totals Js.decimalLiteral 0 CaloriesField "1.5"
              Sample.results
              (setCurrentIngredients [setField Sample.tofu CaloriesField "1.5"; Sample.rice]
                 Sample.results)
              Sample.tofu eq_refl eq_refl) as (_ & _ & _ & _ & _ & H & _).
  apply H. discriminate.
Defined.

(** The total after an edit is not the total before it moved by the
    difference of the two contributions: with 10^16 kcal and 1 kcal in the
    buffer, setting the first row to 0 leaves a total of 1, where the
    difference gives 0. *)
Example edit_total_not_by_difference :
  let rows := [Sample.kcal 10000000000000000; Sample.kcal 1] in
  let edited := <[0%nat := setField (Sample.kcal 10000000000000000) CaloriesField "0"]> rows in
  fieldSum Js.decimalLiteral calories edited = 1%float
  /\ (fieldSum Js.decimalLiteral calories rows - 10000000000000000 + 0 = 0)%float.
Proof. split; reflexivity. Qed.

(** ** The step timer *)

Lemma resetTimer_initial t : StepTimer.resetTimer t = StepTimer.initial.
Proof.
  unfold StepTimer.resetTimer, StepTimer.afterRender. simpl.
  by destruct (bool_decide _).
Qed.

Lemma hasTimer_positive step :
  StepTimer.hasTimer step = true <-> exists n, timer_seconds step = Some n /\ 0 < n.
Proof.
  unfold StepTimer.hasTimer. destruct (timer_seconds step) as [n|].
  - rewrite andb_true_iff, negb_true_iff, Z.eqb_neq, Z.ltb_lt. split.
    + intros [_ H]. eauto.
    + intros (m & [= <-] & H). lia.
  - split; [done|]. by intros (n & ? & _).
Qed.

(** X20. A timer started on a step of [n] seconds shows [n - k] after [k]
    firings of the interval while [k < n], running and not finished; from
    the [n]-th firing on it is finished at 0 and the interval is stopped. *)
Theorem countdown step n k :
  timer_seconds step = Some n -> 0 < n ->
  (Z.of_nat k < n ->
     Nat.iter k StepTimer.tick (StepTimer.startTimer step StepTimer.initial)
     = {| StepTimer.timeLeft := Some (n - Z.of_nat k); StepTimer.isActive := true;
          StepTimer.isFinished := false; StepTimer.interval := true |})
  /\ (n <= Z.of_nat k ->
        Nat.iter k StepTimer.tick (StepTimer.startTimer step StepTimer.initial)
        = {| StepTimer.timeLeft := Some 0; StepTimer.isActive := false;
             StepTimer.isFinished := true; StepTimer.interval := false |}).
Proof.
  intros Hstep Hn.
  assert (Hstart : StepTimer.startTimer step StepTimer.initial
                   = {| StepTimer.timeLeft := Some n; StepTimer.isActive := true;
                        StepTimer.isFinished := false; StepTimer.interval := true |}).
  { unfold StepTimer.startTimer.
    rewrite (proj2 (hasTimer_positive step)) by eauto.
    rewrite Hstep. reflexivity. }
  induction k as [|k [IHrun IHdone]].
  - split; intros Hk; [|lia]. simpl. rewrite Hstart.
    by replace (n - Z.of_nat 0) with n by lia.
  - rewrite Nat2Z.inj_succ. simpl Nat.iter. split; intros Hk.
    + rewrite IHrun by lia. unfold StepTimer.tick. simpl.
      destruct (Z.eqb_spec (n - Z.of_nat k) 0); [lia|].
      destruct (Z.ltb_spec 1 (n - Z.of_nat k)); [|lia]. simpl.
      unfold StepTimer.afterRender. simpl.
      by replace (n - Z.succ (Z.of_nat k)) with (n - Z.of_nat k - 1) by lia.
    + destruct (Z.lt_ge_cases (Z.of_nat k) n) as [Hlt|Hge].
      * rewrite IHrun by lia. unfold StepTimer.tick. simpl.
        destruct (Z.ltb_spec 1 (n - Z.of_nat k)); [lia|].
        rewrite andb_false_r. reflexivity.
      * rewrite IHdone by lia. reflexivity.
Qed.

Lemma countdown_witness :
  Nat.iter 2 StepTimer.tick
    (StepTimer.startTimer {| text := "rest"; timer_seconds := Some 3 |}
       StepTimer.initial)
  = {| StepTimer.timeLeft := Some 1; StepTimer.isActive := true;
       StepTimer.isFinished := false; StepTimer.interval := true |}.
Proof.
  destruct (countdown {| text := "rest"; timer_seconds := Some 3 |} 3 2 eq_refl)
    as [H _]; [lia|].
  apply H. simpl. lia.
Defined.

(** X21. A step without a positive duration cannot be started; and a reset
    brings any timer back to the idle state, after which no firing changes
    anything. *)
Theorem timer_idle step t k :
  (StepTimer.hasTimer step = false -> StepTimer.startTimer step t = t)
  /\ (StepTimer.hasTimer step = true
      <-> exists n, timer_seconds step = Some n /\ 0 < n)
  /\ Nat.iter k StepTimer.tick (StepTimer.resetTimer t) = StepTimer.initial.
Proof.
  split; [|split].
  - intros H. unfold StepTimer.startTimer. by rewrite H.
  - apply hasTimer_positive.
  - rewrite resetTimer_initial. induction k as [|k IH]; [done|].
    simpl. by rewrite IH.
Qed.

Lemma timer_idle_witness :
  StepTimer.startTimer {| text := "stir"; timer_seconds := Some 0 |} StepTimer.initial
  = StepTimer.initial.
Proof.
  destruct (timer_idle {| text := "stir"; timer_seconds := Some 0 |}
              StepTimer.initial 0) as [H _].
  apply H. reflexivity.
Defined.

(** ** The macro chart of the buffer *)

(** A number above 0 is truthy. *)
Lemma positive_truthy x : (0 <? x)%float = true -> Js.truthy x = true.
Proof.
  unfold Js.truthy, is_nan.
  rewrite FloatAxioms.ltb_spec, !FloatAxioms.eqb_spec.
  change (FloatOps.Prim2SF 0) with (SpecFloat.S754_zero false).
  destruct (FloatOps.Prim2SF x) as [s|s| |s m e]; try done.
  - by destruct s.
  - destruct s; cbn; try done.
    unfold SpecFloat.SFeqb, SpecFloat.SFcompare.
    by rewrite Z.compare_refl, Pos.compare_cont_refl.
Qed.

(** A slice is the number itself when it is above 0, and 0 otherwise: for
    a negative number, a zero and NaN. *)
Lemma safeVal_spec x :
  MacroChart.safeVal x = if (0 <? x)%float then x else 0%float.
Proof.
  unfold MacroChart.safeVal.
  destruct (0 <? x)%float eqn:Hpos.
  - pose proof (positive_truthy x Hpos) as Ht.
    unfold Js.orZero. rewrite Ht. unfold MacroChart.max.
    unfold Js.truthy in Ht.
    apply negb_true_iff, orb_false_iff in Ht as [-> _].
    change (is_nan 0) with false. simpl. by rewrite Hpos.
  - unfold Js.orZero. destruct (Js.truthy x) eqn:Ht; [|reflexivity].
    unfold Js.truthy in Ht. apply negb_true_iff, orb_false_iff in Ht as [Hn _].
    unfold MacroChart.max. rewrite Hn. change (is_nan 0) with false. simpl.
    rewrite Hpos. by destruct (x <? 0)%float.
Qed.

Lemma safeVal_positive x : (0 <? MacroChart.safeVal x)%float = (0 <? x)%float.
Proof. rewrite safeVal_spec. by destruct (0 <? x)%float eqn:Hpos. Qed.

Section ChartFacts.
Variable StringToNumber : string -> float.

(** X22. For the totals of any ingredient list, the chart marks the
    calories as good exactly when the calorie sum is at most the target,
    and the protein and carb floors as met exactly when the sums reach
    them; its three slices are the protein, carb and fat sums, each drawn
    as 0 unless it is above 0, and it draws a chart exactly when one of
    those sums is above 0. The sums and the comparisons are those of
    binary64 numbers. *)
Theorem chart_of_totals ings (targetCalories targetProtein targetCarbs : float) :
  let macros := calculateTotalMacros StringToNumber ings in
  let slice (x : float) := if (0 <? x)%float then x else 0%float in
  MacroChart.isCaloriesGood macros targetCalories
    = (fieldSum StringToNumber calories ings <=? targetCalories)%float
  /\ MacroChart.isProteinGood macros targetProtein
     = (targetProtein <=? fieldSum StringToNumber protein ings)%float
  /\ MacroChart.isCarbsGood macros targetCarbs
     = (targetCarbs <=? fieldSum StringToNumber carbs ings)%float
  /\ MacroChart.data macros
     = [slice (fieldSum StringToNumber protein ings);
        slice (fieldSum StringToNumber carbs ings);
        slice (fieldSum StringToNumber fat ings)]
  /\ MacroChart.hasData macros
     = (0 <? fieldSum StringToNumber protein ings)%float
       || (0 <? fieldSum StringToNumber carbs ings)%float
       || (0 <? fieldSum StringToNumber fat ings)%float.
Proof.
  cbv zeta. rewrite (calculateTotalMacros_sums StringToNumber ings).
  unfold MacroChart.isCaloriesGood, MacroChart.isProteinGood,
    MacroChart.isCarbsGood, MacroChart.hasData, MacroChart.data.
  cbn [m_calories m_protein m_fat m_carbs existsb].
  rewrite !safeVal_positive, <- !safeVal_spec.
  repeat split. by rewrite orb_false_r, orb_assoc.
Qed.

End ChartFacts.

(** Against the default targets, tofu and rice stay under the calorie goal
    and miss both floors. *)
Example chart_tofu_rice :
  let macros := calculateTotalMacros Js.decimalLiteral [Sample.tofu; Sample.rice] in
  MacroChart.isCaloriesGood macros (Js.ofInteger (targetCalories DEFAULT_SETTINGS)) = true
  /\ MacroChart.isProteinGood macros (Js.ofInteger (targetProtein DEFAULT_SETTINGS)) = false
  /\ MacroChart.isCarbsGood macros (Js.ofInteger (targetCarbs DEFAULT_SETTINGS)) = false
  /\ MacroChart.hasData macros = true.
Proof. repeat split. Qed.

(** A fraction over the goal is over it: 700.5 kcal against 700. *)
Example chart_fraction_over_goal :
  let macros := calculateTotalMacros Js.decimalLiteral
                  [setField Sample.tofu CaloriesField "700.5"] in
  m_calories macros = 700.5%float
  /\ MacroChart.isCaloriesGood macros (Js.ofInteger (targetCalories DEFAULT_SETTINGS)) = false.
Proof. split; reflexivity. Qed.

(** ** The display of the remaining time *)

Example formatTime_examples :
  StepTimer.formatTime 0 = "0:00" /\ StepTimer.formatTime 65 = "1:05"
  /\ StepTimer.formatTime 600 = "10:00" /\ StepTimer.formatTime 3599 = "59:59".
Proof. repeat split. Qed.









(** ** After saving from Results *)

(** X24. After "Add to Cookbook" the screen is the detail view of the new
    recipe, whose id is the decimal text of the clock, and the buffer and
    the title on display are the ones that were saved. *)
Theorem saveNewRecipe_opens_saved_recipe st a nowId nowTimestamp :
  analysis st = Some a ->
  let st' := dispatch (saveNewRecipe nowId nowTimestamp) st in
  appState st' = COOKBOOK
  /\ selectedRecipeId st' = Some (pretty nowId)
  /\ findRecipe (cookbook st') (Some (pretty nowId)) = head (cookbook st')
  /\ currentIngredients st' = currentIngredients st
  /\ currentTitle st' = currentTitle st
  /\ activeTab st' = activeTab st.
Proof.
  intros Ha. simpl. unfold dispatch.
  set (next := saveNewRecipe nowId nowTimestamp st).
  destruct (afterRender_frame st false next) as (-> & _ & _ & -> & _ & -> & _).
  destruct (afterRender_selection st false next) as (-> & _).
  assert (Hnext : appState next = COOKBOOK
                    /\ selectedRecipeId next = Some (pretty nowId)
                    /\ activeTab next = activeTab st
                    /\ currentIngredients next = currentIngredients st
                    /\ currentTitle next = currentTitle st
                    /\ findRecipe (cookbook next) (Some (pretty nowId))
                       = head (cookbook next)
                    /\ (forall r, head (cookbook next) = Some r ->
                          ingredients (getVariation (variations (Types.analysis r))
                                         (activeTab st)) = currentIngredients st
                          /\ title r = currentTitle st)).
  { unfold next, saveNewRecipe. rewrite Ha. simpl.
    rewrite bool_decide_eq_true_2 by done.
    do 6 (split; [done|]).
    intros r [= <-]. simpl. by rewrite setVariation_same. }
  destruct Hnext as (Hs & Hsel & Htab & Hi & Ht & Hfind & Hhead).
  assert (Hr : resultsTabSync next = None).
  { unfold resultsTabSync. by rewrite Hs. }
  assert (Hc : cookbookTabSync next = None
               \/ cookbookTabSync next = Some (currentIngredients st, currentTitle st)).
  { unfold cookbookTabSync. rewrite Hs, Hsel.
    destruct (Js.truthyString (Some (pretty nowId))) as [rid|] eqn:Htr; [|by left].
    apply truthyString_Some in Htr as [[= <-] _]. rewrite Hfind.
    destruct (head (cookbook next)) as [r|] eqn:Hr'; [|by left].
    right. destruct (Hhead r eq_refl) as [Hri Hrt]. by rewrite Htab, Hri, Hrt. }
  assert (Hbuf : currentIngredients (afterRender st false next) = currentIngredients st
                 /\ currentTitle (afterRender st false next) = currentTitle st).
  { unfold afterRender. rewrite Hr.
    destruct Hc as [-> | ->];
      repeat match goal with |- context [if ?b then _ else _] => destruct b end;
      simpl; by rewrite ?Hi, ?Ht. }
  destruct Hbuf as [Hbi Hbt].
  repeat split; done.
Qed.

Lemma saveNewRecipe_opens_saved_recipe_witness :
  selectedRecipeId
    (dispatch (saveNewRecipe 1718000002000 1718000002001)
       (handleRemoveIngredient 0 Sample.results))
  = Some "1718000002000".
Proof.
  destruct (saveNewRecipe_opens_saved_recipe
              (handleRemoveIngredient 0 Sample.results) Sample.bowl
              1718000002000 1718000002001 eq_refl) as (_ & H & _).
  exact H.
Defined.

(** ** The order of the two views *)

Lemma ascending_cons {A} (cmp : A -> A -> Z) x l :
  ascending cmp (x :: l)
  <-> (forall y, head l = Some y -> cmp x y <= 0) /\ ascending cmp l.
Proof.
  destruct l as [|y l]; simpl.
  - split; [|done]. intros _. split; [|done]. by intros y.
  - split.
    + intros [Hxy Hl]. split; [|done]. by intros ? [= <-].
    + intros [Hxy Hl]. split; [|done]. by apply Hxy.
Qed.

Lemma insertBy_head {A} (cmp : A -> A -> Z) x l z :
  head (Js.insertBy cmp x l) = Some z -> z = x \/ head l = Some z.
Proof.
  destruct l as [|y l]; simpl.
  - intros [= <-]. by left.
  - destruct (cmp x y <=? 0); simpl; intros [= <-]; [by left|by right].
Qed.

Lemma insertBy_ascending {A} (cmp : A -> A -> Z) x l :
  (forall a b, 0 < cmp a b -> cmp b a <= 0) ->
  ascending cmp l -> ascending cmp (Js.insertBy cmp x l).
Proof.
  intros Htotal. induction l as [|y l IH]; intros Hl; [done|].
  simpl Js.insertBy. destruct (Z.leb_spec (cmp x y) 0) as [Hle|Hgt].
  - apply ascending_cons. split; [|done]. by intros ? [= <-].
  - apply ascending_cons in Hl as [Hy Hl]. apply ascending_cons.
    split; [|by apply IH].
    intros z Hz. apply insertBy_head in Hz as [-> | Hz].
    + by apply Htotal.
    + by apply Hy.
Qed.

Lemma sort_ascending {A} (cmp : A -> A -> Z) l :
  (forall a b, 0 < cmp a b -> cmp b a <= 0) ->
  ascending cmp (Js.sort cmp l).
Proof.
  intros Htotal. induction l as [|x l IH]; [done|].
  simpl. by apply insertBy_ascending.
Qed.

Lemma ascending_fmap {A B} (f : A -> B) (cmp : B -> B -> Z) l :
  ascending cmp (f <$> l) <-> ascending (fun a b => cmp (f a) (f b)) l.
Proof.
  induction l as [|x l IH]; [done|].
  rewrite fmap_cons, !ascending_cons, IH.
  destruct l as [|y l]; simpl; [|split; intros [H ?]; (split; [|done])].
  - split; intros [_ ?]; (split; [|done]); done.
  - intros ? [= <-]. by apply H.
  - intros ? [= <-]. by apply H.
Qed.

Lemma codeCompare_total a b :
  0 < Js.codeCompare a b -> Js.codeCompare b a <= 0.
Proof.
  unfold Js.codeCompare. rewrite (String.compare_antisym b a).
  by destruct (String.compare a b).
Qed.

Section OrderFacts.
Variable localeCompare : string -> string -> Z.
Hypothesis localeCompare_total :
  forall a b, 0 < localeCompare a b -> localeCompare b a <= 0.

(** X25. When [localeCompare] never puts each of two strings after the
    other, the rows of the A-Z view are in ascending order of ingredient
    name, and the cards of the recipe view are those of the active plans
    arranged in ascending order of date. *)
Theorem shopping_views_ascending startStr endStr st :
  (forall rows,
     renderShoppingList localeCompare ALPHA startStr endStr st = AlphaView rows ->
     ascending (fun a b => localeCompare (item (e_item (a_entry a)))
                                         (item (e_item (a_entry b)))) rows)
  /\ (forall cards,
        renderShoppingList localeCompare RECIPE startStr endStr st = RecipeView cards ->
        exists plans,
          cards = planCard (cookbook st) (checkedItems st) <$> plans
          /\ plans ≡ₚ activePlans startStr endStr (weekPlan st)
          /\ ascending (fun a b => localeCompare (date a) (date b)) plans).
Proof.
  unfold renderShoppingList. split.
  - intros rows Hrows.
    destruct (activePlans startStr endStr (weekPlan st)) as [|p plans]; [done|].
    injection Hrows as <-. apply ascending_fmap. simpl.
    unfold alphaSorted. apply sort_ascending.
    intros a b. apply localeCompare_total.
  - intros cards Hcards.
    destruct (activePlans startStr endStr (weekPlan st)) as [|p plans]; [done|].
    injection Hcards as <-. eexists. split; [reflexivity|]. split.
    + apply (sort_Permutation _ (p :: plans)).
    + apply (sort_ascending _ (p :: plans)). intros a b. apply localeCompare_total.
Qed.

End OrderFacts.

Lemma shopping_views_ascending_witness :
  ascending (fun a b => Js.codeCompare (item (e_item (a_entry a)))
                                       (item (e_item (a_entry b))))
    (match renderShoppingList Js.codeCompare ALPHA "2024-06-10" "2024-06-16"
             Sample.week with
     | AlphaView rows => rows
     | _ => []
     end).
Proof.
  destruct (shopping_views_ascending Js.codeCompare codeCompare_total
              "2024-06-10" "2024-06-16" Sample.week) as [H _].
  apply H. reflexivity.
Defined.

(** ** Check marks in the views *)

Lemma toggleCheck_mark id st x :
  bool_decide (x ∈ checkedItems (toggleCheck id st))
  = if bool_decide (x = id) then negb (bool_decide (x ∈ checkedItems st))
    else bool_decide (x ∈ checkedItems st).
Proof.
  unfold toggleCheck.
  destruct (decide (id ∈ checkedItems st)) as [Hmem|Hmem].
  - rewrite (bool_decide_eq_true_2 _ Hmem). simpl.
    destruct (decide (x = id)) as [->|Hne].
    + rewrite (bool_decide_eq_true_2 (id = id)) by done.
      rewrite (bool_decide_eq_true_2 _ Hmem). simpl.
      apply bool_decide_eq_false_2.
      rewrite elem_of_difference, elem_of_singleton. tauto.
    + rewrite (bool_decide_eq_false_2 _ Hne).
      apply bool_decide_ext.
      rewrite elem_of_difference, elem_of_singleton. tauto.
  - rewrite (bool_decide_eq_false_2 _ Hmem). simpl.
    destruct (decide (x = id)) as [->|Hne].
    + rewrite (bool_decide_eq_true_2 (id = id)) by done.
      rewrite (bool_decide_eq_false_2 _ Hmem). simpl.
      apply bool_decide_eq_true_2.
      rewrite elem_of_union, elem_of_singleton. tauto.
    + rewrite (bool_decide_eq_false_2 _ Hne).
      apply bool_decide_ext.
      rewrite elem_of_union, elem_of_singleton. tauto.
Qed.

Lemma toggleCheck_frame id st :
  weekPlan (toggleCheck id st) = weekPlan st
  /\ cookbook (toggleCheck id st) = cookbook st.
Proof. unfold toggleCheck. by destruct (bool_decide _). Qed.

Lemma marked_toggle id st entry :
  marked (checkedItems (toggleCheck id st)) entry
  = flipMark id (marked (checkedItems st) entry).
Proof. unfold marked, flipMark. simpl. by rewrite toggleCheck_mark. Qed.

(** The lines of either view, as the marked entries they are made of. *)
Lemma screenLines_marked localeCompare view startStr endStr st :
  exists entries,
    forall checked,
      screenLines
        (renderShoppingList localeCompare view startStr endStr
           (setCheckedItems checked st))
      = marked checked <$> entries.
Proof.
  unfold renderShoppingList. simpl.
  destruct (activePlans startStr endStr (weekPlan st)) as [|p plans] eqn:Hplans.
  - exists []. intros checked. by destruct view.
  - rewrite <- Hplans. destruct view.
    + exists (Js.sort (fun a b => localeCompare (date a) (date b))
                (activePlans startStr endStr (weekPlan st))
              ≫= planEntries (cookbook st)).
      intros checked. simpl. rewrite list_fmap_bind, fmap_bind_list.
      apply list_bind_ext; [|done]. intros plan. simpl.
      apply planCard_lines.
    + exists (alphaSorted localeCompare
                (allIngredients (cookbook st)
                   (activePlans startStr endStr (weekPlan st)))).
      intros checked. simpl. by rewrite <- list_fmap_compose.
Qed.

(** X26. Toggling the check mark of an id negates the mark of every line
    with that id in both views of the shopping list and changes nothing
    else: the lines, their order and the other marks are the same. *)
Theorem toggleCheck_in_views localeCompare view startStr endStr id st :
  screenLines (renderShoppingList localeCompare view startStr endStr (toggleCheck id st))
  = flipMark id
      <$> screenLines (renderShoppingList localeCompare view startStr endStr st).
Proof.
  destruct (screenLines_marked localeCompare view startStr endStr st)
    as [entries Hlines].
  assert (Hst : forall s', weekPlan s' = weekPlan st -> cookbook s' = cookbook st ->
            screenLines (renderShoppingList localeCompare view startStr endStr s')
            = marked (checkedItems s') <$> entries).
  { intros s' Hw Hc. rewrite <- (Hlines (checkedItems s')).
    unfold renderShoppingList. simpl. by rewrite Hw, Hc. }
  destruct (toggleCheck_frame id st) as [Hw Hc].
  rewrite (Hst (toggleCheck id st) Hw Hc), (Hst st eq_refl eq_refl).
  rewrite <- list_fmap_compose. apply list_fmap_ext.
  intros i entry _. simpl. apply marked_toggle.
Qed.
